(** * Cricket API proxy (main.py): a shallow embedding and its properties

    The handlers of [main.py] are embedded as functions over a small model
    of the Python values they manipulate (the JSON payloads of the upstream
    providers), an explicit exception type, and a monad threading the log of
    outbound HTTP requests.  The transport ([requests.get]) and the RSS
    parser ([feedparser.parse]) are oracles: arbitrary functions from the
    request to its outcome.

    Strings are sequences of 8-bit characters; [str.upper] and [repr] are
    the ASCII ones (on 7-bit text they agree with Python's). *)

From Stdlib Require Import String Ascii List ZArith QArith Bool Lia DecimalString.
Import ListNotations.
Local Open Scope string_scope.
Local Open Scope Z_scope.
Set Warnings "-register-all".

(** ** Python values *)

Module Py.

(** What [json.loads] can produce; a dict keeps its insertion order, a
    lookup takes the first binding of the key. *)
Inductive value : Type :=
| VNone
| VBool (b : bool)
| VInt (n : Z)
| VFloat (x : Q)
| VStr (s : string)
| VList (l : list value)
| VDict (d : list (string * value)).

(** [bool(v)] *)
Definition truthy (v : value) : bool :=
  match v with
  | VNone => false
  | VBool b => b
  | VInt n => negb (n =? 0)
  | VFloat x => negb (Qnum x =? 0)
  | VStr s => negb (String.length s =? 0)%nat
  | VList l => negb (length l =? 0)%nat
  | VDict d => negb (length d =? 0)%nat
  end.

(** [type(v).__name__] *)
Definition type_name (v : value) : string :=
  match v with
  | VNone => "NoneType"
  | VBool _ => "bool"
  | VInt _ => "int"
  | VFloat _ => "float"
  | VStr _ => "str"
  | VList _ => "list"
  | VDict _ => "dict"
  end.

(** [a or b] *)
Definition por (a b : value) : value := if truthy a then a else b.

(** [d.get(k)] on the bindings of a dict. *)
Fixpoint lookup (k : string) (d : list (string * value)) : option value :=
  match d with
  | [] => None
  | (k', v) :: d' => if String.eqb k k' then Some v else lookup k d'
  end.

(** [d[k] = v]: overwrite in place, or append. *)
Fixpoint setitem (k : string) (v : value) (d : list (string * value))
  : list (string * value) :=
  match d with
  | [] => [(k, v)]
  | (k', v') :: d' =>
      if String.eqb k k' then (k, v) :: d' else (k', v') :: setitem k v d'
  end.

(** *** Strings *)

Definition upper_char (c : ascii) : ascii :=
  let n := nat_of_ascii c in
  if ((97 <=? n) && (n <=? 122))%nat then ascii_of_nat (n - 32) else c.

(** [s.upper()] on ASCII text: the letters a to z are raised and every
    other character is left as it is.  Python's also maps the letters
    outside ASCII, which can change the length; nothing proved below rests on
    what [upper] does to them. *)
Fixpoint upper (s : string) : string :=
  match s with
  | EmptyString => EmptyString
  | String c s' => String (upper_char c) (upper s')
  end.

(** [s[:n]] *)
Fixpoint take (n : nat) (s : string) : string :=
  match n, s with
  | O, _ => EmptyString
  | S _, EmptyString => EmptyString
  | S n', String c s' => String c (take n' s')
  end.

(** [s.lstrip('/')] *)
Fixpoint lstrip_slash (s : string) : string :=
  match s with
  | String "/" s' => lstrip_slash s'
  | _ => s
  end.

(** [s.rstrip('/')] *)
Fixpoint rstrip_slash (s : string) : string :=
  match s with
  | EmptyString => EmptyString
  | String c s' =>
      match rstrip_slash s' with
      | EmptyString => if Ascii.eqb c "/" then EmptyString else String c EmptyString
      | r => String c r
      end
  end.

Definition hex_digit (n : nat) : ascii :=
  if (n <? 10)%nat then ascii_of_nat (48 + n) else ascii_of_nat (87 + n).

Fixpoint mem_char (c : ascii) (s : string) : bool :=
  match s with
  | EmptyString => false
  | String c' s' => Ascii.eqb c c' || mem_char c s'
  end.

(** The body of [repr(s)] for the quote character [q]. *)
Fixpoint repr_body (q : ascii) (s : string) : string :=
  match s with
  | EmptyString => EmptyString
  | String c s' =>
      let n := nat_of_ascii c in
      let rest := repr_body q s' in
      if Ascii.eqb c "\" then String "\" (String "\" rest)
      else if Ascii.eqb c q then String "\" (String c rest)
      else if (n =? 10)%nat then String "\" (String "n" rest)
      else if (n =? 13)%nat then String "\" (String "r" rest)
      else if (n =? 9)%nat then String "\" (String "t" rest)
      else if ((n <? 32) || (126 <? n))%nat then
        String "\" (String "x" (String (hex_digit (n / 16))
                                  (String (hex_digit (n mod 16)) rest)))
      else String c rest
  end.

Definition squote : ascii := ascii_of_nat 39.
Definition dquote : ascii := ascii_of_nat 34.

(** [repr(s)] on ASCII text: single quotes unless the text holds one and no
    double quote.  Characters above 126 stand escaped here, where Python
    keeps the printable ones. *)
Definition repr (s : string) : string :=
  let q := if mem_char squote s && negb (mem_char dquote s) then dquote else squote in
  String q (repr_body q s ++ String q EmptyString).

End Py.

Import Py.

(** ** Exceptions *)

(** The exceptions the handlers can meet.  [HTTPException] is FastAPI's, an
    already classified failure; the others are ordinary Python exceptions. *)
Inductive exn : Type :=
| HTTPException (status_code : Z) (detail : string)
| AttributeError (tyname attr : string)
| TypeError (msg : string)
| KeyError (key_repr : string)
| IndexError (msg : string)
| RequestException (msg : string)
| JSONDecodeError (msg : string).

Definition is_http (e : exn) : bool :=
  match e with HTTPException _ _ => true | _ => false end.

(** [str(e)] *)
Definition exc_str (e : exn) : string :=
  match e with
  | HTTPException c d => NilZero.string_of_int (Z.to_int c) ++ ": " ++ d
  | AttributeError t a => "'" ++ t ++ "' object has no attribute '" ++ a ++ "'"
  | TypeError m => m
  | KeyError r => r
  | IndexError m => m
  | RequestException m => m
  | JSONDecodeError m => m
  end.

Inductive outcome (A : Type) : Type :=
| Returns (a : A)
| Raises (e : exn).
Arguments Returns {A} a.
Arguments Raises {A} e.

Definition obind {A B} (c : outcome A) (k : A -> outcome B) : outcome B :=
  match c with
  | Returns a => k a
  | Raises e => Raises e
  end.

Declare Scope py_scope.
Delimit Scope py_scope with py.
Notation "x <- c ;; k" := (obind c (fun x => k))
  (at level 100, c at next level, right associativity) : py_scope.
Local Open Scope py_scope.

(** ** Methods and operators that can raise *)

(** [m.get(k)] *)
Definition get (m : value) (k : string) : outcome value :=
  match m with
  | VDict d => Returns (match lookup k d with Some v => v | None => VNone end)
  | _ => Raises (AttributeError (type_name m) "get")
  end.

(** [m.get(k, dflt)] *)
Definition get_default (m : value) (k : string) (dflt : value) : outcome value :=
  match m with
  | VDict d => Returns (match lookup k d with Some v => v | None => dflt end)
  | _ => Raises (AttributeError (type_name m) "get")
  end.

(** [v.upper()] *)
Definition str_upper (v : value) : outcome value :=
  match v with
  | VStr s => Returns (VStr (upper s))
  | _ => Raises (AttributeError (type_name v) "upper")
  end.

Fixpoint chars (s : string) : list value :=
  match s with
  | EmptyString => []
  | String c s' => VStr (String c EmptyString) :: chars s'
  end.

(** The items a [for] loop sees: a dict iterates over its keys. *)
Definition py_iter (v : value) : outcome (list value) :=
  match v with
  | VList l => Returns l
  | VDict d => Returns (map (fun kv => VStr (fst kv)) d)
  | VStr s => Returns (chars s)
  | _ => Raises (TypeError ("'" ++ type_name v ++ "' object is not iterable"))
  end.

(** [v[0]] *)
Definition index0 (v : value) : outcome value :=
  match v with
  | VList (a :: _) => Returns a
  | VList [] => Raises (IndexError "list index out of range")
  | VStr (String c _) => Returns (VStr (String c EmptyString))
  | VStr EmptyString => Raises (IndexError "string index out of range")
  | VDict _ => Raises (KeyError "0")
  | _ => Raises (TypeError ("'" ++ type_name v ++ "' object is not subscriptable"))
  end.

(** [table[k]] on a literal dict of strings. *)
Fixpoint subscript (table : list (string * string)) (k : string) : outcome string :=
  match table with
  | [] => Raises (KeyError (repr k))
  | (k', v) :: t => if String.eqb k k' then Returns v else subscript t k
  end.

(** A loop or comprehension body run over the items, left to right; the
    first exception ends it. *)
Fixpoint for_each {A B} (f : A -> outcome B) (l : list A) : outcome (list B) :=
  match l with
  | [] => Returns []
  | a :: l' => b <- f a ;; bs <- for_each f l' ;; Returns (b :: bs)
  end.

(** ** Outbound requests *)

Record request : Type := mkRequest {
  url : string;
  params : list (string * value);
  headers : list (string * string);
  timeout : Z
}.

Record response : Type := mkResponse {
  status_code : Z;
  text : string;
  (** [r.json()]: the decoded body, or the decoder's message *)
  json : string + value
}.

(** [requests.get]: given the requests already issued and the new one, a
    response or the message of a network-level failure. *)
Definition transport : Type := list request -> request -> string + response.

(** A computation that may issue requests: it threads the log of the
    requests issued so far. *)
Definition IO (A : Type) : Type := list request -> outcome A * list request.

Definition ret {A} (a : A) : IO A := fun log => (Returns a, log).
Definition raise {A} (e : exn) : IO A := fun log => (Raises e, log).
Definition lift {A} (c : outcome A) : IO A := fun log => (c, log).

Definition bind {A B} (c : IO A) (k : A -> IO B) : IO B :=
  fun log =>
    match c log with
    | (Returns a, log') => k a log'
    | (Raises e, log') => (Raises e, log')
    end.

(** [try: c  except Exception as e: h(e)] *)
Definition try_except {A} (c : IO A) (h : exn -> IO A) : IO A :=
  fun log =>
    match c log with
    | (Returns a, log') => (Returns a, log')
    | (Raises e, log') => h e log'
    end.

Notation "x <~ c ;; k" := (bind c (fun x => k))
  (at level 100, c at next level, right associativity) : py_scope.

Definition requests_get (net : transport) (rq : request) : IO response :=
  fun log =>
    match net log rq with
    | inl msg => (Raises (RequestException msg), (log ++ [rq])%list)
    | inr r => (Returns r, (log ++ [rq])%list)
    end.

Definition r_json (r : response) : IO value :=
  match json r with
  | inl msg => raise (JSONDecodeError msg)
  | inr v => ret v
  end.

(** ** Configuration *)

Record config : Type := mkConfig {
  API_PROVIDER : string;
  CRICKET_API_KEY : option string;
  SPORTMONKS_BASE : string;
  RAPIDAPI_HOST : option string;
  RAPIDAPI_KEY : option string;
  X_BEARER_TOKEN : option string
}.

(** The value of an environment variable when it is truthy: [os.getenv]
    gives [None] for an unset variable, and the empty string is falsy. *)
Definition env_set (o : option string) : option string :=
  match o with
  | Some (String c s) => Some (String c s)
  | _ => None
  end.

Definition RAPIDAPI_DEFAULT_BASE : string := "https://cricbuzz-cricket.p.rapidapi.com".

(** ** Provider clients *)

Section Handlers.

Variable cfg : config.
Variable net : transport.

Definition sportmonks_get (path : string) (params : option (list (string * value)))
  : IO value :=
  match env_set (CRICKET_API_KEY cfg) with
  | None => raise (HTTPException 501 "CRICKET_API_KEY not set for SportMonks")
  | Some key =>
      let url := rstrip_slash (SPORTMONKS_BASE cfg) ++ "/" ++ lstrip_slash path in
      let params := match params with Some p => p | None => [] end in
      let params := setitem "api_token" (VStr key) params in
      r <~ requests_get net (mkRequest url params [] 15) ;;
      if status_code r =? 200 then r_json r
      else raise (HTTPException (status_code r) (text r))
  end.

Definition rapidapi_get (path : string) (params : option (list (string * value)))
  (base : string) : IO value :=
  match env_set (RAPIDAPI_KEY cfg), env_set (RAPIDAPI_HOST cfg) with
  | Some key, Some host =>
      let url := rstrip_slash base ++ "/" ++ lstrip_slash path in
      let headers := [("X-RapidAPI-Key", key); ("X-RapidAPI-Host", host)] in
      let params := match params with Some p => p | None => [] end in
      r <~ requests_get net (mkRequest url params headers 15) ;;
      if status_code r =? 200 then r_json r
      else raise (HTTPException (status_code r) (text r))
  | _, _ => raise (HTTPException 501 "RAPIDAPI_KEY or RAPIDAPI_HOST not configured")
  end.

(** ** Schema normalizers *)

Definition empty_dict : value := VDict [].

(** [to_card], the closure of [get_matches] for the SportMonks provider;
    [type] is the handler's argument it captures. *)
Definition to_card (type : string) (m : value) : outcome value :=
  a <- get m "localteam" ;;
  let lt := por a empty_dict in
  b <- get m "visitorteam" ;;
  let vt := por b empty_dict in
  c <- get m "venue" ;;
  let venue := por c empty_dict in
  id <- get m "id" ;;
  cond <- get m "status" ;;
  status <- (if truthy cond
             then (st <- get m "status" ;; str_upper st)
             else Returns (VStr (upper type))) ;;
  note <- get m "note" ;;
  runs <- get m "runs" ;;
  league_id <- get m "season_id" ;;
  lt_id <- get lt "id" ;;
  lt_name <- get lt "name" ;;
  lt_code <- get lt "code" ;;
  vt_id <- get vt "id" ;;
  vt_name <- get vt "name" ;;
  vt_code <- get vt "code" ;;
  venue_name <- get venue "name" ;;
  venue_city <- get venue "city" ;;
  starting_at <- get m "starting_at" ;;
  Returns (VDict [
    ("id", id);
    ("status", status);
    ("note", note);
    ("runs", runs);
    ("league_id", league_id);
    ("localteam", VDict [("id", lt_id); ("name", lt_name); ("code", lt_code)]);
    ("visitorteam", VDict [("id", vt_id); ("name", vt_name); ("code", vt_code)]);
    ("venue", VDict [("name", venue_name); ("city", venue_city)]);
    ("starting_at", starting_at)]).

(** [(m.get(k) or {}).get(field)] *)
Definition sub_get (m : value) (k field : string) : outcome value :=
  t <- get m k ;;
  get (por t empty_dict) field.

(** [m.get(k, {}).get(field)] *)
Definition sub_get_default (m : value) (k field : string) : outcome value :=
  t <- get_default m k empty_dict ;;
  get t field.

(** The body of the loop of [get_matches] for the RapidAPI provider: the
    card appended for the record [m]. *)
Definition rapid_card (type : string) (m : value) : outcome value :=
  mid <- get m "matchId" ;;
  id <- (if truthy mid then Returns mid else get m "id") ;;
  ms <- get m "matchState" ;;
  st <- (if truthy ms then Returns ms else get_default m "status" (VStr type)) ;;
  status <- str_upper st ;;
  note <- get m "seriesName" ;;
  lt_name <- sub_get m "team1" "teamName" ;;
  lt_code <- sub_get m "team1" "teamSName" ;;
  vt_name <- sub_get m "team2" "teamName" ;;
  vt_code <- sub_get m "team2" "teamSName" ;;
  venue_name <- sub_get_default m "venueInfo" "ground" ;;
  venue_city <- sub_get_default m "venueInfo" "city" ;;
  starting_at <- get m "startTime" ;;
  Returns (VDict [
    ("id", id);
    ("status", status);
    ("note", note);
    ("localteam", VDict [("name", lt_name); ("code", lt_code)]);
    ("visitorteam", VDict [("name", vt_name); ("code", vt_code)]);
    ("venue", VDict [("name", venue_name); ("city", venue_city)]);
    ("starting_at", starting_at)]).

(** ** Aggregation endpoints *)

Definition sportmonks_endpoints : list (string * string) :=
  [("live", "livescores"); ("upcoming", "fixtures"); ("completed", "fixtures/finished")].

Definition rapidapi_paths : list (string * string) :=
  [("live", "matches/v1/live"); ("upcoming", "matches/v1/upcoming");
   ("completed", "matches/v1/recent")].

(** The two [except] clauses shared by [get_matches] and
    [get_match_details]: an [HTTPException] is re-raised, any other
    exception becomes a 500 carrying [str(e)[:200]]. *)
Definition reraise_or_500 {A} (e : exn) : IO A :=
  match e with
  | HTTPException c d => raise (HTTPException c d)
  | _ => raise (HTTPException 500 (take 200 (exc_str e)))
  end.

(** The items the RapidAPI branch loops over: [data.get("matches", data)]. *)
Definition rapid_items (data : value) : outcome value :=
  get_default data "matches" data.

(** The [try] block of [get_matches]. *)
Definition get_matches_body (type : string) : IO value :=
  if String.eqb (API_PROVIDER cfg) "sportmonks" then
    endpoint <~ lift (subscript sportmonks_endpoints type) ;;
    let params := [("include", VStr "localteam,visitorteam,venue,season")] in
    data <~ sportmonks_get endpoint (Some params) ;;
    raw_matches <~ lift (get_default data "data" (VList [])) ;;
    matches <~ lift (l <- py_iter raw_matches ;; for_each (to_card type) l) ;;
    ret (VDict [("type", VStr type); ("matches", VList matches)])
  else
    path <~ lift (subscript rapidapi_paths type) ;;
    data <~ rapidapi_get path None RAPIDAPI_DEFAULT_BASE ;;
    items <~ lift (rapid_items data) ;;
    cards <~ lift (l <- py_iter items ;; for_each (rapid_card type) l) ;;
    ret (VDict [("type", VStr type); ("matches", VList cards)]).

(** [get_matches], the handler itself: the route's pattern, which admits
    live, upcoming and completed only, is checked by the framework before
    the handler runs. *)
Definition get_matches (type : string) : IO value :=
  try_except (get_matches_body type) reraise_or_500.

Definition match_includes : string :=
  "localteam,visitorteam,venue" ++ "," ++
  "runs,batting,bowling,manofmatch,manofseries" ++ "," ++
  "lineup,balls,scoreboards".

(** The [try] block of [get_match_details]. *)
Definition get_match_details_body (match_id : string) : IO value :=
  if String.eqb (API_PROVIDER cfg) "sportmonks" then
    sportmonks_get ("fixtures/" ++ match_id) (Some [("include", VStr match_includes)])
  else
    rapidapi_get ("mcenter/v1/" ++ match_id) None RAPIDAPI_DEFAULT_BASE.

Definition get_match_details (match_id : string) : IO value :=
  try_except (get_match_details_body match_id) reraise_or_500.

(** *** Rankings *)

Definition rankings_url (format what : string) : string :=
  "https://www.icc-cricket.com/iccrankings/api/" ++ format ++ "/men/" ++ what.

(** One pass of [for cat in players.keys()]: the request for [cat], and
    [players[cat] = pr.json()] when it answers 200. *)
Definition rankings_step (format : string) (players : list (string * value))
  (cat : string) : IO (list (string * value)) :=
  pr <~ requests_get net (mkRequest (rankings_url format cat) [] [] 15) ;;
  if status_code pr =? 200
  then (v <~ r_json pr ;; ret (setitem cat v players))
  else ret players.

Fixpoint rankings_loop (format : string) (cats : list string)
  (players : list (string * value)) : IO (list (string * value)) :=
  match cats with
  | [] => ret players
  | cat :: rest =>
      players' <~ rankings_step format players cat ;;
      rankings_loop format rest players'
  end.

Definition players_init : list (string * value) :=
  [("batting", VList []); ("bowling", VList []); ("allrounder", VList [])].

(** The [try] block of [get_rankings]. *)
Definition get_rankings_body (format : string) : IO value :=
  r <~ requests_get net (mkRequest (rankings_url format "teams") [] [] 15) ;;
  teams <~ (if status_code r =? 200 then r_json r else ret (VList [])) ;;
  players <~ rankings_loop format (map fst players_init) players_init ;;
  ret (VDict [("format", VStr format); ("teams", teams); ("players", VDict players)]).

Definition get_rankings (format : string) : IO value :=
  try_except (get_rankings_body format)
    (fun e => raise (HTTPException 500 (take 200 (exc_str e)))).

(** *** Tweets *)

Definition tweet (t : value) : outcome value :=
  id <- get t "id" ;;
  txt <- get t "text" ;;
  created_at <- get t "created_at" ;;
  metrics <- get_default t "public_metrics" empty_dict ;;
  Returns (VDict [("id", id); ("text", txt); ("created_at", created_at);
                  ("metrics", metrics)]).

Definition get_tweets (query : string) : IO value :=
  match env_set (X_BEARER_TOKEN cfg) with
  | None => ret (VDict [("tweets", VList []);
                        ("note", VStr "X_BEARER_TOKEN not configured")])
  | Some token =>
      let headers := [("Authorization", "Bearer " ++ token)] in
      let params := [("query", VStr query);
                     ("tweet.fields", VStr "created_at,public_metrics");
                     ("max_results", VInt 10)] in
      r <~ requests_get net
             (mkRequest "https://api.twitter.com/2/tweets/search/recent" params headers 15) ;;
      if status_code r =? 200 then
        data <~ r_json r ;;
        tweets <~ lift (d <- get_default data "data" (VList []) ;;
                        l <- py_iter d ;; for_each tweet l) ;;
        ret (VDict [("tweets", VList tweets)])
      else raise (HTTPException (status_code r) (text r))
  end.

End Handlers.

(** *** News *)

(** What [feedparser.parse] returns: [feed.feed] and [feed.entries]. *)
Record feed : Type := mkFeed {
  feed_meta : value;
  entries : list value
}.

(** [feedparser.parse] as a function of the feed's address: the parsed
    feed, or the message of the exception it raises. *)
Definition feedparser : Type := string -> string + feed.

(** The item appended for the entry [e] of a feed. *)
Definition news_item (meta e : value) : outcome value :=
  title <- get e "title" ;;
  link <- get e "link" ;;
  summary <- get_default e "summary" (VStr "") ;;
  updated <- get e "updated" ;;
  published <- get_default e "published" updated ;;
  source <- get_default meta "title" (VStr "RSS") ;;
  thumb <- get e "media_thumbnail" ;;
  media <- (if truthy thumb then Returns thumb
            else (content <- get e "media_content" ;;
                  Returns (por content (VList [empty_dict])))) ;;
  first <- index0 media ;;
  image <- get first "url" ;;
  Returns (VDict [("title", title); ("link", link); ("summary", summary);
                  ("published", published); ("source", source); ("image", image)]).

(** The inner loop: [items.append] for each entry in turn.  [items] is the
    list shared across feeds, so what was appended before an exception
    stays. *)
Fixpoint append_entries (meta : value) (es : list value) (items : list value)
  : outcome unit * list value :=
  match es with
  | [] => (Returns tt, items)
  | e :: es' =>
      match news_item meta e with
      | Returns it => append_entries meta es' (items ++ [it])%list
      | Raises x => (Raises x, items)
      end
  end.

(** The loop over the sources; [except Exception: continue] drops the
    exception of a feed and goes on with the next one. *)
Fixpoint news_loop (parse : feedparser) (sources : list string) (items : list value)
  : list value :=
  match sources with
  | [] => items
  | src :: rest =>
      match parse src with
      | inl _ => news_loop parse rest items
      | inr f =>
          news_loop parse rest
            (snd (append_entries (feed_meta f) (firstn 20 (entries f)) items))
      end
  end.

Definition NEWS_SOURCES : list string :=
  ["https://www.espncricinfo.com/rss/content/story/feeds/0.xml";
   "https://www.icc-cricket.com/rss/news"].

(** [get_news], with the list of sources as an argument. *)
Definition get_news_from (parse : feedparser) (sources : list string) : value :=
  VDict [("items", VList (firstn 50 (news_loop parse sources [])))].

Definition get_news (parse : feedparser) : value := get_news_from parse NEWS_SOURCES.

(** ** What the client receives *)

Record http_response : Type := Http {
  code : Z;
  (** the JSON (or text) sent, [None] for a response without a body *)
  body : option value
}.

(** A response with a body, and one without. *)
Definition mkHttp (c : Z) (v : value) : http_response := Http c (Some v).
Definition mkHttpEmpty (c : Z) : http_response := Http c None.

(** FastAPI's [is_body_allowed_for_status_code]: no body below 200 and for
    204, 205 and 304. *)
Definition body_allowed (c : Z) : bool :=
  negb ((c <? 200) || (c =? 204) || (c =? 205) || (c =? 304)).

(** FastAPI's handler of an [HTTPException]: its status, and its detail as
    the body where the status allows one. *)
Definition http_error (c : Z) (d : string) : http_response :=
  if body_allowed c then mkHttp c (VDict [("detail", VStr d)]) else mkHttpEmpty c.

(** FastAPI's rendering of a handler's outcome: a returned value is a 200,
    an [HTTPException] goes through its handler, anything else that escapes
    the handler is a plain 500. *)
Definition respond (o : outcome value) : http_response :=
  match o with
  | Returns v => mkHttp 200 v
  | Raises (HTTPException c d) => http_error c d
  | Raises _ => mkHttp 500 (VStr "Internal Server Error")
  end.

(** ** Static endpoints *)

(** [read_root] *)
Definition read_root (cfg : config) : value :=
  VDict [("message", VStr "Cricket Backend Running");
         ("provider", VStr (API_PROVIDER cfg))].

(** [hello] *)
Definition hello : value :=
  VDict [("message", VStr "Hello from the backend API!")].

(** [a or b] on two environment variables. *)
Definition getenv_or (a b : option string) : option string :=
  match env_set a with
  | Some _ => a
  | None => b
  end.

(** [test_database]; [now] is the clock's reading, [int(time.time())].  The
    literals that are not ASCII stand as their UTF-8 bytes. *)
Definition test_database (cfg : config) (now : Z) : value :=
  VDict [("backend", VStr "✅ Running");
         ("external_api",
          VStr (match env_set (getenv_or (CRICKET_API_KEY cfg) (RAPIDAPI_KEY cfg)) with
                | None => "⚠️ Not Configured"
                | Some _ => "✅ Configured"
                end));
         ("provider", VStr (API_PROVIDER cfg));
         ("time", VInt now)].

Definition player (name country handle image : string) : value :=
  VDict [("name", VStr name); ("country", VStr country);
         ("handle", VStr handle); ("image", VStr image)].

(** [trending_players] *)
Definition trending_players : value :=
  VDict [("players", VList [
    player "Virat Kohli" "India" "imVkohli"
      "https://pbs.twimg.com/profile_images/1390384696942200832/0B8zW0gq_400x400.jpg";
    player "Joe Root" "England" "root66"
      "https://pbs.twimg.com/profile_images/1334100239247923202/0YfYxQyW_400x400.jpg";
    player "Babar Azam" "Pakistan" "babarazam258"
      "https://pbs.twimg.com/profile_images/1674019404247615488/1jWkQd2w_400x400.jpg";
    player "Kane Williamson" "New Zealand" "" "";
    player "Pat Cummins" "Australia" "patcummins30" ""])].

(** * Properties *)

(** ** Vocabulary of the statements, and concrete inputs *)

Definition cfg_primary : config :=
  mkConfig "sportmonks" (Some "secret") "https://cricket.sportmonks.com/api/v2.0/"
           None None None.

Definition cfg_alternate : config :=
  mkConfig "rapidapi" None "https://cricket.sportmonks.com/api/v2.0"
           (Some "cricbuzz-cricket.p.rapidapi.com") (Some "secret") None.

Definition cfg_unset : config :=
  mkConfig "sportmonks" None "https://cricket.sportmonks.com/api/v2.0" None None None.

(** A transport answering every request with [r]. *)
Definition net_const (r : response) : transport := fun _ _ => inr r.

(** A transport on which every request fails at the network level. *)
Definition net_down (msg : string) : transport := fun _ _ => inl msg.

Definition ok_json (v : value) : response := mkResponse 200 "" (inr v).

(** The request [sportmonks_get] builds. *)
Definition sportmonks_request (cfg : config) (key path : string)
  (params : option (list (string * value))) : request :=
  mkRequest (rstrip_slash (SPORTMONKS_BASE cfg) ++ "/" ++ lstrip_slash path)
            (setitem "api_token" (VStr key) (match params with Some p => p | None => [] end))
            [] 15.

(** The request [rapidapi_get] builds. *)
Definition rapidapi_request (key host path : string)
  (params : option (list (string * value))) (base : string) : request :=
  mkRequest (rstrip_slash base ++ "/" ++ lstrip_slash path)
            (match params with Some p => p | None => [] end)
            [("X-RapidAPI-Key", key); ("X-RapidAPI-Host", host)] 15.

(** The mapping part of the SportMonks branch, from the decoded payload. *)
Definition primary_matches (type : string) (data : value) : outcome value :=
  raw_matches <- get_default data "data" (VList []) ;;
  l <- py_iter raw_matches ;;
  matches <- for_each (to_card type) l ;;
  Returns (VDict [("type", VStr type); ("matches", VList matches)]).

(** The mapping part of the RapidAPI branch, from the decoded payload. *)
Definition alternate_matches (type : string) (data : value) : outcome value :=
  items <- rapid_items data ;;
  l <- py_iter items ;;
  cards <- for_each (rapid_card type) l ;;
  Returns (VDict [("type", VStr type); ("matches", VList cards)]).

(** What a provider client does with the transport's answer. *)
Definition fetched (answer : string + response) : outcome value :=
  match answer with
  | inl msg => Raises (RequestException msg)
  | inr r =>
      if status_code r =? 200
      then match json r with
           | inl msg => Raises (JSONDecodeError msg)
           | inr v => Returns v
           end
      else Raises (HTTPException (status_code r) (text r))
  end.

Definition include_list : list (string * value) :=
  [("include", VStr "localteam,visitorteam,venue,season")].

(** The handler's [except] clauses on the outcome of its [try] block. *)
Definition guarded (o : outcome value) : outcome value :=
  match o with
  | Returns v => Returns v
  | Raises (HTTPException c d) => Raises (HTTPException c d)
  | Raises e => Raises (HTTPException 500 (take 200 (exc_str e)))
  end.

Definition match_detail_params : option (list (string * value)) :=
  Some [("include", VStr match_includes)].

Definition not_found : response :=
  mkResponse 404 "{'message': 'fixture not found'}" (inl "Expecting value").

(** A payload whose list of matches holds a number instead of a record. *)
Definition bad_payload : value := VDict [("data", VList [VInt 7])].

(** The field [k] of a normalized entry. *)
Definition field (c : value) (k : string) : option value :=
  match c with
  | VDict d => lookup k d
  | _ => None
  end.

(** [d.get(k)] on the bindings: [None] for an absent key. *)
Definition dget (d : list (string * value)) (k : string) : value :=
  match lookup k d with Some v => v | None => VNone end.

(** The status of the entry [c] that [to_card] makes of the record with
    bindings [d]: a string; the record's status upper-cased when that is a
    non-empty string; the requested type upper-cased when the record has no
    status, or a falsy one (null, the empty string, zero). *)
Definition primary_status_spec (type : string) (d : list (string * value)) (c : value)
  : Prop :=
  (exists s, field c "status" = Some (VStr s)) /\
  (forall x, lookup "status" d = Some (VStr x) -> x <> "" ->
             field c "status" = Some (VStr (upper x))) /\
  (lookup "status" d = None -> field c "status" = Some (VStr (upper type))) /\
  (forall v, lookup "status" d = Some v -> truthy v = false ->
             field c "status" = Some (VStr (upper type))).

(** The status of the entry [c] that the RapidAPI loop makes of the record
    with bindings [d]: a string; [matchState] upper-cased when that is a
    non-empty string; otherwise, with [matchState] absent or falsy, the
    record's [status] upper-cased, and the requested type upper-cased when
    the record has no [status]. *)
Definition alternate_status_spec (type : string) (d : list (string * value)) (c : value)
  : Prop :=
  (exists s, field c "status" = Some (VStr s)) /\
  (forall x, lookup "matchState" d = Some (VStr x) -> x <> "" ->
             field c "status" = Some (VStr (upper x))) /\
  (truthy (dget d "matchState") = false ->
   forall x, lookup "status" d = Some (VStr x) ->
             field c "status" = Some (VStr (upper x))) /\
  (truthy (dget d "matchState") = false -> lookup "status" d = None ->
   field c "status" = Some (VStr (upper type))).

(** The payload [data] is what the active provider's client returned for
    the resource of [type]. *)
Definition fetched_payload (cfg : config) (net : transport) (type : string)
  (log : list request) (data : value) : Prop :=
  exists path,
    if String.eqb (API_PROVIDER cfg) "sportmonks"
    then subscript sportmonks_endpoints type = Returns path /\
         fst (sportmonks_get cfg net path (Some include_list) log) = Returns data
    else subscript rapidapi_paths type = Returns path /\
         fst (rapidapi_get cfg net path None RAPIDAPI_DEFAULT_BASE log) = Returns data.

(** The field of the payload that holds the records, per provider. *)
Definition payload_items (cfg : config) (data : value) : outcome value :=
  if String.eqb (API_PROVIDER cfg) "sportmonks"
  then get_default data "data" (VList [])
  else rapid_items data.

(** The status of the [i]-th entry of the response a handler returned. *)
Definition entry_status (o : outcome value) (i : nat) : option value :=
  match o with
  | Returns resp =>
      match field resp "matches" with
      | Some (VList cards) =>
          match nth_error cards i with
          | Some c => field c "status"
          | None => None
          end
      | _ => None
      end
  | Raises _ => None
  end.

Definition empty_status_record : value := VDict [("id", VInt 1); ("status", VStr "")].

Definition two_status_record : value :=
  VDict [("matchId", VInt 2); ("matchState", VStr "Complete"); ("status", VStr "Stumps")].

Definition state_only_record : value :=
  VDict [("matchId", VInt 3); ("matchState", VStr "In Progress")].

Definition live_record : value :=
  VDict [("id", VInt 7); ("status", VStr "Live");
         ("localteam", VDict [("id", VInt 1); ("name", VStr "India"); ("code", VStr "IND")])].

Definition bare_record : value := VDict [("id", VInt 8)].

Definition null_team : value := VDict [("id", VNone); ("name", VNone); ("code", VNone)].
Definition null_team_alt : value := VDict [("name", VNone); ("code", VNone)].
Definition null_venue : value := VDict [("name", VNone); ("city", VNone)].

Definition is_dict (v : value) : bool :=
  match v with VDict _ => true | _ => false end.

Definition is_str (v : value) : bool :=
  match v with VStr _ => true | _ => false end.

(** The field [k] is absent, falsy (null), or an object. *)
Definition object_or_falsy (d : list (string * value)) (k : string) : bool :=
  negb (truthy (dget d k)) || is_dict (dget d k).

(** The field [k] is absent or an object. *)
Definition object_or_absent (d : list (string * value)) (k : string) : bool :=
  match lookup k d with None => true | Some v => is_dict v end.

(** A primary-provider record whose fields, where present, have the
    provider's types: the status a string, the sub-objects objects. *)
Definition primary_typed (d : list (string * value)) : bool :=
  (negb (truthy (dget d "status")) || is_str (dget d "status")) &&
  object_or_falsy d "localteam" && object_or_falsy d "visitorteam" &&
  object_or_falsy d "venue".

(** The same for an alternate-provider record. *)
Definition alternate_typed (d : list (string * value)) : bool :=
  (if truthy (dget d "matchState") then is_str (dget d "matchState")
   else match lookup "status" d with None => true | Some v => is_str v end) &&
  object_or_falsy d "team1" && object_or_falsy d "team2" &&
  object_or_absent d "venueInfo".

Definition no_venue_record : list (string * value) :=
  [("matchId", VInt 41881); ("matchState", VStr "Preview");
   ("team1", VDict [("teamName", VStr "India"); ("teamSName", VStr "IND")])].

(** The request of the rankings handler for [what]: the teams, or one of
    the player categories. *)
Definition rankings_request (format what : string) : request :=
  mkRequest (rankings_url format what) [] [] 15.

(** What a sub-request answered with [r] puts in its slot. *)
Definition slot (r : response) : value :=
  if status_code r =? 200
  then match json r with inr v => v | inl _ => VList [] end
  else VList [].

(** An answer whose body decodes whenever its status is 200. *)
Definition decodable (r : response) : bool :=
  negb (status_code r =? 200) || match json r with inr _ => true | inl _ => false end.

Definition unavailable : response := mkResponse 503 "Service Unavailable" (inl "Expecting value").

(** Only the batting rankings are served. *)
Definition net_batting_only : transport :=
  fun _ rq =>
    if String.eqb (url rq) (rankings_url "t20" "batting")
    then inr (ok_json (VList [VDict [("name", VStr "Babar Azam"); ("rank", VInt 1)]]))
    else inr unavailable.

(** The items a feed's entries give, in order, up to the first entry whose
    normalization raises. *)
Fixpoint items_until_error (meta : value) (es : list value) : list value :=
  match es with
  | [] => []
  | e :: es' =>
      match news_item meta e with
      | Returns it => it :: items_until_error meta es'
      | Raises _ => []
      end
  end.

(** What one source contributes: nothing when its parse fails, otherwise
    the items of its first 20 entries. *)
Definition feed_items (parse : feedparser) (src : string) : list value :=
  match parse src with
  | inl _ => []
  | inr f => items_until_error (feed_meta f) (firstn 20 (entries f))
  end.

Definition story (n : nat) : value :=
  VDict [("title", VStr ("story " ++ NilZero.string_of_uint (Nat.to_uint n)));
         ("link", VStr "https://example.org/story");
         ("published", VStr "Mon, 02 Nov 2026 10:00:00 GMT")].

Definition feed_of (title : string) (n : nat) : feed :=
  mkFeed (VDict [("title", VStr title)]) (map story (seq 0 n)).

(** Four sources: 25 entries, a parse that raises, 40 entries, 30 entries. *)
Definition parse_demo : feedparser :=
  fun src =>
    if String.eqb src "a" then inr (feed_of "A" 25)
    else if String.eqb src "b" then inl "not well-formed"
    else if String.eqb src "c" then inr (feed_of "C" 40)
    else inr (feed_of "D" 30).

(** *** Vocabulary of the further properties *)

(** The configuration with another base address for SportMonks. *)
Definition with_base (cfg : config) (base : string) : config :=
  mkConfig (API_PROVIDER cfg) (CRICKET_API_KEY cfg) base
           (RAPIDAPI_HOST cfg) (RAPIDAPI_KEY cfg) (X_BEARER_TOKEN cfg).

(** The text ends with a slash. *)
Fixpoint ends_with_slash (s : string) : bool :=
  match s with
  | EmptyString => false
  | String c EmptyString => Ascii.eqb c "/"
  | String _ s' => ends_with_slash s'
  end.

(** The text starts with a slash. *)
Definition starts_with_slash (s : string) : bool :=
  match s with
  | String c _ => Ascii.eqb c "/"
  | EmptyString => false
  end.

(** The keys of an object, in order. *)
Definition keys (c : value) : list string :=
  match c with
  | VDict d => map fst d
  | _ => []
  end.

(** The request [get_tweets] builds. *)
Definition tweets_request (token query : string) : request :=
  mkRequest "https://api.twitter.com/2/tweets/search/recent"
            [("query", VStr query);
             ("tweet.fields", VStr "created_at,public_metrics");
             ("max_results", VInt 10)]
            [("Authorization", "Bearer " ++ token)] 15.

(** The four requests of the rankings handler, in the order it issues them. *)
Definition rankings_requests (format : string) : list request :=
  [rankings_request format "teams"; rankings_request format "batting";
   rankings_request format "bowling"; rankings_request format "allrounder"].

(** The mapping part of [get_tweets], from the decoded payload. *)
Definition tweets_of (data : value) : outcome value :=
  d <- get_default data "data" (VList []) ;;
  l <- py_iter d ;;
  tweets <- for_each tweet l ;;
  Returns (VDict [("tweets", VList tweets)]).

(** The entry [c] is the tweet made of the record [t]: the record's id,
    text and created_at, and its [public_metrics], the empty object when it
    has none. *)
Definition tweet_of (t c : value) : Prop :=
  exists td, t = VDict td /\
    c = VDict [("id", dget td "id"); ("text", dget td "text");
               ("created_at", dget td "created_at");
               ("metrics", match lookup "public_metrics" td with
                           | Some v => v
                           | None => VDict []
                           end)].

(** The source's parse returns a feed. *)
Definition parses (parse : feedparser) (src : string) : bool :=
  match parse src with
  | inr _ => true
  | inl _ => false
  end.


Definition cfg_social : config :=
  mkConfig "sportmonks" None "https://cricket.sportmonks.com/api/v2.0" None None
           (Some "AAAA").

Definition cfg_half : config :=
  mkConfig "rapidapi" None "https://cricket.sportmonks.com/api/v2.0"
           None (Some "secret") None.

(** ** Strings *)

Lemma take_length (n : nat) (s : string) :
  String.length (take n s) = Nat.min n (String.length s).
Proof.
  revert s; induction n as [|n IH]; intros [|c s]; simpl; auto.
Qed.

Lemma take_prefix (n : nat) (s : string) : String.prefix (take n s) s = true.
Proof.
  revert s; induction n as [|n IH]; intros [|c s]; simpl; auto.
  destruct (ascii_dec c c) as [_|ne]; [apply IH | now elim ne].
Qed.

Lemma take_all (n : nat) (s : string) :
  (String.length s <= n)%nat -> take n s = s.
Proof.
  revert s; induction n as [|n IH]; intros [|c s]; simpl; intros H; auto.
  - lia.
  - f_equal. apply IH. lia.
Qed.

Lemma env_set_None (o : option string) :
  env_set o = None <-> o = None \/ o = Some "".
Proof.
  destruct o as [[|c s]|]; simpl; split; intros H; auto; try discriminate.
  destruct H as [H|H]; discriminate.
Qed.

(** ** Provider clients *)

Section ClientFacts.

Variable cfg : config.
Variable net : transport.

Lemma sportmonks_get_configured key path params log :
  env_set (CRICKET_API_KEY cfg) = Some key ->
  sportmonks_get cfg net path params log =
    match net log (sportmonks_request cfg key path params) with
    | inl msg => (Raises (RequestException msg),
                  (log ++ [sportmonks_request cfg key path params])%list)
    | inr r =>
        (if status_code r =? 200
         then match json r with
              | inl msg => Raises (JSONDecodeError msg)
              | inr v => Returns v
              end
         else Raises (HTTPException (status_code r) (text r)),
         (log ++ [sportmonks_request cfg key path params])%list)
    end.
Proof.
  intros Hk. unfold sportmonks_get, sportmonks_request, bind, requests_get.
  rewrite Hk.
  destruct (net log _) as [msg|r]; [reflexivity|].
  destruct (status_code r =? 200); [|reflexivity].
  unfold r_json. destruct (json r); reflexivity.
Qed.

Lemma rapidapi_get_configured key host path params base log :
  env_set (RAPIDAPI_KEY cfg) = Some key ->
  env_set (RAPIDAPI_HOST cfg) = Some host ->
  rapidapi_get cfg net path params base log =
    match net log (rapidapi_request key host path params base) with
    | inl msg => (Raises (RequestException msg),
                  (log ++ [rapidapi_request key host path params base])%list)
    | inr r =>
        (if status_code r =? 200
         then match json r with
              | inl msg => Raises (JSONDecodeError msg)
              | inr v => Returns v
              end
         else Raises (HTTPException (status_code r) (text r)),
         (log ++ [rapidapi_request key host path params base])%list)
    end.
Proof.
  intros Hk Hh. unfold rapidapi_get, rapidapi_request, bind, requests_get.
  rewrite Hk, Hh.
  destruct (net log _) as [msg|r]; [reflexivity|].
  destruct (status_code r =? 200); [|reflexivity].
  unfold r_json. destruct (json r); reflexivity.
Qed.

End ClientFacts.

(** C2. A fetch for a provider whose credential is unset (absent from the
    environment, or empty) fails with 501 at once: [sportmonks_get] when
    [CRICKET_API_KEY] is unset, [rapidapi_get] when [RAPIDAPI_KEY] or
    [RAPIDAPI_HOST] is; the client receives status 501, and the log of
    requests is left as it was, so no request is issued. *)
Theorem fetch_unconfigured_501 (cfg : config) (net : transport) (path : string)
  (params : option (list (string * value))) (base : string) (log : list request) :
  (env_set (CRICKET_API_KEY cfg) = None ->
     sportmonks_get cfg net path params log =
       (Raises (HTTPException 501 "CRICKET_API_KEY not set for SportMonks"), log) /\
     code (respond (fst (sportmonks_get cfg net path params log))) = 501) /\
  (env_set (RAPIDAPI_KEY cfg) = None \/ env_set (RAPIDAPI_HOST cfg) = None ->
     rapidapi_get cfg net path params base log =
       (Raises (HTTPException 501 "RAPIDAPI_KEY or RAPIDAPI_HOST not configured"), log) /\
     code (respond (fst (rapidapi_get cfg net path params base log))) = 501).
Proof.
  split.
  - intros H. unfold sportmonks_get. rewrite H. split; reflexivity.
  - intros H. unfold rapidapi_get.
    destruct H as [H|H]; rewrite H.
    + split; reflexivity.
    + destruct (env_set (RAPIDAPI_KEY cfg)); split; reflexivity.
Qed.

Lemma fetch_unconfigured_501_witness :
  sportmonks_get cfg_unset (net_const (ok_json VNone)) "livescores" None [] =
    (Raises (HTTPException 501 "CRICKET_API_KEY not set for SportMonks"), []) /\
  rapidapi_get cfg_unset (net_const (ok_json VNone)) "matches/v1/live" None
    RAPIDAPI_DEFAULT_BASE [] =
    (Raises (HTTPException 501 "RAPIDAPI_KEY or RAPIDAPI_HOST not configured"), []).
Proof.
  destruct (fetch_unconfigured_501 cfg_unset (net_const (ok_json VNone))
              "livescores" None RAPIDAPI_DEFAULT_BASE []) as [H1 _].
  destruct (fetch_unconfigured_501 cfg_unset (net_const (ok_json VNone))
              "matches/v1/live" None RAPIDAPI_DEFAULT_BASE []) as [_ H2].
  split.
  - apply H1. reflexivity.
  - apply H2. left. reflexivity.
Defined.

(** ** The matches list, unfolded *)

Section MatchesFacts.

Variable cfg : config.
Variable net : transport.

Lemma get_matches_body_primary type endpoint key log :
  API_PROVIDER cfg = "sportmonks" ->
  subscript sportmonks_endpoints type = Returns endpoint ->
  env_set (CRICKET_API_KEY cfg) = Some key ->
  let rq := sportmonks_request cfg key endpoint (Some include_list) in
  get_matches_body cfg net type log =
    (data <- fetched (net log rq) ;; primary_matches type data, (log ++ [rq])%list).
Proof.
  intros Hp He Hk rq. unfold get_matches_body. rewrite Hp, String.eqb_refl.
  unfold bind at 1. unfold lift at 1. rewrite He.
  unfold bind at 1. rewrite (sportmonks_get_configured cfg net key _ _ _ Hk).
  fold include_list. fold rq. unfold fetched, primary_matches.
  destruct (net log rq) as [msg|r]; [reflexivity|].
  destruct (status_code r =? 200); [|reflexivity].
  destruct (json r) as [msg|data]; [reflexivity|].
  unfold bind, lift, ret. cbn [obind].
  destruct (get_default data "data" (VList [])) as [raw|e]; [|reflexivity]. cbn [obind].
  destruct (py_iter raw) as [l|e]; [|reflexivity]. cbn [obind].
  destruct (for_each (to_card type) l); reflexivity.
Qed.

Lemma get_matches_body_alternate type path key host log :
  API_PROVIDER cfg <> "sportmonks" ->
  subscript rapidapi_paths type = Returns path ->
  env_set (RAPIDAPI_KEY cfg) = Some key ->
  env_set (RAPIDAPI_HOST cfg) = Some host ->
  let rq := rapidapi_request key host path None RAPIDAPI_DEFAULT_BASE in
  get_matches_body cfg net type log =
    (data <- fetched (net log rq) ;; alternate_matches type data, (log ++ [rq])%list).
Proof.
  intros Hp He Hk Hh rq. unfold get_matches_body.
  apply String.eqb_neq in Hp. rewrite Hp.
  unfold bind at 1. unfold lift at 1. rewrite He.
  unfold bind at 1. rewrite (rapidapi_get_configured cfg net key host _ _ _ _ Hk Hh).
  fold rq. unfold fetched, alternate_matches.
  destruct (net log rq) as [msg|r]; [reflexivity|].
  destruct (status_code r =? 200); [|reflexivity].
  destruct (json r) as [msg|data]; [reflexivity|].
  unfold bind, lift, ret. cbn [obind].
  destruct (rapid_items data) as [raw|e]; [|reflexivity]. cbn [obind].
  destruct (py_iter raw) as [l|e]; [|reflexivity]. cbn [obind].
  destruct (for_each (rapid_card type) l); reflexivity.
Qed.

Lemma try_reraise_or_500 (c : IO value) (log : list request) :
  try_except c reraise_or_500 log = (guarded (fst (c log)), snd (c log)).
Proof.
  unfold try_except. destruct (c log) as [[v|e] log']; [reflexivity|].
  destruct e; reflexivity.
Qed.

End MatchesFacts.

(** ** Resource paths *)

(** C5, as the specification words it, does not hold: the paths it lists for
    the completed category of the primary provider and for the three
    categories of the alternate provider are not the ones in the tables. *)
Lemma spec_resource_paths_refuted :
  ~ (subscript sportmonks_endpoints "live" = Returns "livescores" /\
     subscript sportmonks_endpoints "upcoming" = Returns "fixtures" /\
     subscript sportmonks_endpoints "completed" = Returns "fixtures-finished" /\
     subscript rapidapi_paths "live" = Returns "matches/live" /\
     subscript rapidapi_paths "upcoming" = Returns "matches/upcoming" /\
     subscript rapidapi_paths "completed" = Returns "matches/recent").
Proof.
  intros (_ & _ & H & _). vm_compute in H. discriminate H.
Qed.

(** C5 (amended). The matches list maps live, upcoming and completed to
    livescores, fixtures and fixtures/finished for the primary provider and
    to matches/v1/live, matches/v1/upcoming and matches/v1/recent for the
    alternate one; with the provider configured, the handler issues exactly
    one request, to the provider's base address followed by that path. *)
Theorem matches_resource_paths (cfg : config) (net : transport) (log : list request) :
  (subscript sportmonks_endpoints "live" = Returns "livescores" /\
   subscript sportmonks_endpoints "upcoming" = Returns "fixtures" /\
   subscript sportmonks_endpoints "completed" = Returns "fixtures/finished" /\
   subscript rapidapi_paths "live" = Returns "matches/v1/live" /\
   subscript rapidapi_paths "upcoming" = Returns "matches/v1/upcoming" /\
   subscript rapidapi_paths "completed" = Returns "matches/v1/recent") /\
  (forall type endpoint key,
     API_PROVIDER cfg = "sportmonks" ->
     env_set (CRICKET_API_KEY cfg) = Some key ->
     subscript sportmonks_endpoints type = Returns endpoint ->
     snd (get_matches cfg net type log) =
       (log ++ [sportmonks_request cfg key endpoint (Some include_list)])%list /\
     url (sportmonks_request cfg key endpoint (Some include_list)) =
       rstrip_slash (SPORTMONKS_BASE cfg) ++ "/" ++ lstrip_slash endpoint) /\
  (forall type path key host,
     API_PROVIDER cfg <> "sportmonks" ->
     env_set (RAPIDAPI_KEY cfg) = Some key ->
     env_set (RAPIDAPI_HOST cfg) = Some host ->
     subscript rapidapi_paths type = Returns path ->
     snd (get_matches cfg net type log) =
       (log ++ [rapidapi_request key host path None RAPIDAPI_DEFAULT_BASE])%list /\
     url (rapidapi_request key host path None RAPIDAPI_DEFAULT_BASE) =
       RAPIDAPI_DEFAULT_BASE ++ "/" ++ lstrip_slash path).
Proof.
  split; [repeat split|split].
  - intros type endpoint key Hp Hk He. split; [|reflexivity].
    unfold get_matches. rewrite try_reraise_or_500.
    rewrite (get_matches_body_primary cfg net type endpoint key log Hp He Hk).
    reflexivity.
  - intros type path key host Hp Hk Hh He. split; [|reflexivity].
    unfold get_matches. rewrite try_reraise_or_500.
    rewrite (get_matches_body_alternate cfg net type path key host log Hp He Hk Hh).
    reflexivity.
Qed.

Lemma matches_resource_paths_witness :
  map url (snd (get_matches cfg_primary (net_down "timed out") "completed" [])) =
    ["https://cricket.sportmonks.com/api/v2.0/fixtures/finished"] /\
  map url (snd (get_matches cfg_alternate (net_down "timed out") "live" [])) =
    ["https://cricbuzz-cricket.p.rapidapi.com/matches/v1/live"].
Proof.
  destruct (matches_resource_paths cfg_primary (net_down "timed out") [])
    as (_ & H1 & _).
  destruct (matches_resource_paths cfg_alternate (net_down "timed out") [])
    as (_ & _ & H2).
  split.
  - destruct (H1 "completed" "fixtures/finished" "secret") as [E _];
      [reflexivity | reflexivity | reflexivity |].
    rewrite E. reflexivity.
  - destruct (H2 "live" "matches/v1/live" "secret" "cricbuzz-cricket.p.rapidapi.com")
      as [E _]; [discriminate | reflexivity | reflexivity | reflexivity |].
    rewrite E. reflexivity.
Defined.

(** ** Tweets *)

(** C8. With the bearer token unset (absent or empty), the tweet search
    returns the empty list of tweets with its note whatever the query, the
    client receives status 200, and the log of requests is left as it was. *)
Theorem get_tweets_unconfigured (cfg : config) (net : transport) (query : string)
  (log : list request) :
  env_set (X_BEARER_TOKEN cfg) = None ->
  get_tweets cfg net query log =
    (Returns (VDict [("tweets", VList []);
                     ("note", VStr "X_BEARER_TOKEN not configured")]), log) /\
  code (respond (fst (get_tweets cfg net query log))) = 200.
Proof.
  intros H. unfold get_tweets. rewrite H. split; reflexivity.
Qed.

Lemma get_tweets_unconfigured_witness :
  get_tweets cfg_primary (net_down "unreachable") "imVkohli" [] =
    (Returns (VDict [("tweets", VList []);
                     ("note", VStr "X_BEARER_TOKEN not configured")]), []).
Proof.
  apply (get_tweets_unconfigured cfg_primary (net_down "unreachable") "imVkohli" []).
  reflexivity.
Defined.

(** ** Failures of the upstream and of the processing *)

Section DetailFacts.

Variable cfg : config.
Variable net : transport.

Lemma get_match_details_body_primary match_id key log :
  API_PROVIDER cfg = "sportmonks" ->
  env_set (CRICKET_API_KEY cfg) = Some key ->
  let rq := sportmonks_request cfg key ("fixtures/" ++ match_id) match_detail_params in
  get_match_details_body cfg net match_id log =
    (fetched (net log rq), (log ++ [rq])%list).
Proof.
  intros Hp Hk rq. unfold get_match_details_body. rewrite Hp, String.eqb_refl.
  rewrite (sportmonks_get_configured cfg net key _ _ _ Hk).
  fold match_detail_params. fold rq. unfold fetched.
  destruct (net log rq); reflexivity.
Qed.

Lemma get_match_details_body_alternate match_id key host log :
  API_PROVIDER cfg <> "sportmonks" ->
  env_set (RAPIDAPI_KEY cfg) = Some key ->
  env_set (RAPIDAPI_HOST cfg) = Some host ->
  let rq := rapidapi_request key host ("mcenter/v1/" ++ match_id) None
              RAPIDAPI_DEFAULT_BASE in
  get_match_details_body cfg net match_id log =
    (fetched (net log rq), (log ++ [rq])%list).
Proof.
  intros Hp Hk Hh rq. unfold get_match_details_body.
  apply String.eqb_neq in Hp. rewrite Hp.
  rewrite (rapidapi_get_configured cfg net key host _ _ _ _ Hk Hh).
  fold rq. unfold fetched.
  destruct (net log rq); reflexivity.
Qed.

End DetailFacts.

Lemma fetched_upstream_error (r : response) :
  status_code r <> 200 ->
  fetched (inr r) = Raises (HTTPException (status_code r) (text r)).
Proof.
  intros H. unfold fetched. apply Z.eqb_neq in H. rewrite H. reflexivity.
Qed.

(** C6. When the upstream answers a fetch with a status other than 200, the
    fetch raises an [HTTPException] carrying that status and the body of the
    answer as its detail, for both clients; the matches list and the match
    detail of either provider raise the very same exception, which goes to
    the framework's handler: the client receives the upstream's status, with
    the body as the detail wherever the status allows a body (every status
    from 200 on but 204, 205 and 304). *)
Theorem upstream_error_passes_through (cfg : config) (net : transport)
  (log : list request) (r : response) :
  status_code r <> 200 ->
  let failure := Raises (HTTPException (status_code r) (text r)) in
  (forall key path params,
     env_set (CRICKET_API_KEY cfg) = Some key ->
     net log (sportmonks_request cfg key path params) = inr r ->
     fst (sportmonks_get cfg net path params log) = failure) /\
  (forall key host path params base,
     env_set (RAPIDAPI_KEY cfg) = Some key ->
     env_set (RAPIDAPI_HOST cfg) = Some host ->
     net log (rapidapi_request key host path params base) = inr r ->
     fst (rapidapi_get cfg net path params base log) = failure) /\
  (forall key type endpoint,
     API_PROVIDER cfg = "sportmonks" ->
     env_set (CRICKET_API_KEY cfg) = Some key ->
     subscript sportmonks_endpoints type = Returns endpoint ->
     net log (sportmonks_request cfg key endpoint (Some include_list)) = inr r ->
     fst (get_matches cfg net type log) = failure /\
     respond (fst (get_matches cfg net type log)) =
       http_error (status_code r) (text r)) /\
  (forall key host type path,
     API_PROVIDER cfg <> "sportmonks" ->
     env_set (RAPIDAPI_KEY cfg) = Some key ->
     env_set (RAPIDAPI_HOST cfg) = Some host ->
     subscript rapidapi_paths type = Returns path ->
     net log (rapidapi_request key host path None RAPIDAPI_DEFAULT_BASE) = inr r ->
     fst (get_matches cfg net type log) = failure /\
     respond (fst (get_matches cfg net type log)) =
       http_error (status_code r) (text r)) /\
  (forall key match_id,
     API_PROVIDER cfg = "sportmonks" ->
     env_set (CRICKET_API_KEY cfg) = Some key ->
     net log (sportmonks_request cfg key ("fixtures/" ++ match_id) match_detail_params)
       = inr r ->
     fst (get_match_details cfg net match_id log) = failure /\
     respond (fst (get_match_details cfg net match_id log)) =
       http_error (status_code r) (text r)) /\
  (forall key host match_id,
     API_PROVIDER cfg <> "sportmonks" ->
     env_set (RAPIDAPI_KEY cfg) = Some key ->
     env_set (RAPIDAPI_HOST cfg) = Some host ->
     net log (rapidapi_request key host ("mcenter/v1/" ++ match_id) None
                RAPIDAPI_DEFAULT_BASE) = inr r ->
     fst (get_match_details cfg net match_id log) = failure /\
     respond (fst (get_match_details cfg net match_id log)) =
       http_error (status_code r) (text r)) /\
  code (http_error (status_code r) (text r)) = status_code r /\
  (body_allowed (status_code r) = true ->
   http_error (status_code r) (text r) =
     mkHttp (status_code r) (VDict [("detail", VStr (text r))])).
Proof.
  intros Hr failure. pose proof (fetched_upstream_error r Hr) as Hf.
  repeat apply conj.
  - intros key path params Hk Hn.
    rewrite (sportmonks_get_configured cfg net key _ _ _ Hk), Hn.
    exact Hf.
  - intros key host path params base Hk Hh Hn.
    rewrite (rapidapi_get_configured cfg net key host _ _ _ _ Hk Hh), Hn.
    exact Hf.
  - intros key type endpoint Hp Hk He Hn.
    unfold get_matches. rewrite try_reraise_or_500.
    rewrite (get_matches_body_primary cfg net type endpoint key log Hp He Hk).
    cbv zeta. rewrite Hn, Hf. split; reflexivity.
  - intros key host type path Hp Hk Hh He Hn.
    unfold get_matches. rewrite try_reraise_or_500.
    rewrite (get_matches_body_alternate cfg net type path key host log Hp He Hk Hh).
    cbv zeta. rewrite Hn, Hf. split; reflexivity.
  - intros key match_id Hp Hk Hn.
    unfold get_match_details. rewrite try_reraise_or_500.
    rewrite (get_match_details_body_primary cfg net match_id key log Hp Hk).
    cbv zeta. rewrite Hn, Hf. split; reflexivity.
  - intros key host match_id Hp Hk Hh Hn.
    unfold get_match_details. rewrite try_reraise_or_500.
    rewrite (get_match_details_body_alternate cfg net match_id key host log Hp Hk Hh).
    cbv zeta. rewrite Hn, Hf. split; reflexivity.
  - unfold http_error. destruct (body_allowed (status_code r)); reflexivity.
  - intros Hb. unfold http_error. rewrite Hb. reflexivity.
Qed.

Lemma upstream_error_passes_through_witness :
  fst (sportmonks_get cfg_primary (net_const not_found) "livescores" None []) =
    Raises (HTTPException 404 "{'message': 'fixture not found'}") /\
  respond (fst (get_matches cfg_primary (net_const not_found) "live" [])) =
    mkHttp 404 (VDict [("detail", VStr "{'message': 'fixture not found'}")]) /\
  respond (fst (get_match_details cfg_alternate (net_const not_found) "41881" [])) =
    mkHttp 404 (VDict [("detail", VStr "{'message': 'fixture not found'}")]).
Proof.
  assert (Hr : status_code not_found <> 200) by discriminate.
  destruct (upstream_error_passes_through cfg_primary (net_const not_found) []
              not_found Hr) as (H1 & _ & H3 & _).
  destruct (upstream_error_passes_through cfg_alternate (net_const not_found) []
              not_found Hr) as (_ & _ & _ & _ & _ & H6 & _).
  repeat apply conj.
  - apply (H1 "secret" "livescores" None); reflexivity.
  - apply (H3 "secret" "live" "livescores"); reflexivity.
  - apply (H6 "secret" "cricbuzz-cricket.p.rapidapi.com" "41881");
      [discriminate | reflexivity | reflexivity | reflexivity].
Defined.

(** An upstream 204 passes through as a 204 without a body. *)
Example upstream_204_no_body :
  respond (fst (get_matches cfg_primary
                  (net_const (mkResponse 204 "" (inl "Expecting value"))) "live" [])) =
    mkHttpEmpty 204.
Proof. reflexivity. Qed.

(** C9. When the [try] block of the matches list or of the match detail
    raises an exception that is not an [HTTPException], the handler raises
    [HTTPException] 500 whose detail is the first 200 characters of the
    exception's message (the whole message when it is no longer), and the
    client receives status 500 with that detail. *)
Theorem unexpected_exception_500 (cfg : config) (net : transport)
  (log log' : list request) (e : exn) :
  is_http e = false ->
  let detail := take 200 (exc_str e) in
  (forall type,
     get_matches_body cfg net type log = (Raises e, log') ->
     get_matches cfg net type log = (Raises (HTTPException 500 detail), log') /\
     respond (fst (get_matches cfg net type log)) =
       mkHttp 500 (VDict [("detail", VStr detail)])) /\
  (forall match_id,
     get_match_details_body cfg net match_id log = (Raises e, log') ->
     get_match_details cfg net match_id log = (Raises (HTTPException 500 detail), log') /\
     respond (fst (get_match_details cfg net match_id log)) =
       mkHttp 500 (VDict [("detail", VStr detail)])) /\
  (String.length detail <= 200)%nat /\
  String.prefix detail (exc_str e) = true /\
  ((String.length (exc_str e) <= 200)%nat -> detail = exc_str e).
Proof.
  intros He detail.
  assert (Hg : guarded (Raises e) = Raises (HTTPException 500 detail)).
  { destruct e; try reflexivity. discriminate He. }
  repeat apply conj.
  - intros type Hb. unfold get_matches. rewrite try_reraise_or_500, Hb.
    cbn [fst snd]. rewrite Hg. split; reflexivity.
  - intros match_id Hb. unfold get_match_details. rewrite try_reraise_or_500, Hb.
    cbn [fst snd]. rewrite Hg. split; reflexivity.
  - unfold detail. rewrite take_length. apply Nat.le_min_l.
  - apply take_prefix.
  - apply take_all.
Qed.

Lemma unexpected_exception_500_witness :
  get_matches cfg_primary (net_const (ok_json bad_payload)) "live" [] =
    (Raises (HTTPException 500 "'int' object has no attribute 'get'"),
     [sportmonks_request cfg_primary "secret" "livescores" (Some include_list)]) /\
  respond (fst (get_match_details cfg_alternate (net_down "Read timed out.") "41881" [])) =
    mkHttp 500 (VDict [("detail", VStr "Read timed out.")]).
Proof.
  split.
  - apply (unexpected_exception_500 cfg_primary (net_const (ok_json bad_payload)) []
             [sportmonks_request cfg_primary "secret" "livescores" (Some include_list)]
             (AttributeError "int" "get")); reflexivity.
  - apply (unexpected_exception_500 cfg_alternate (net_down "Read timed out.") []
             [rapidapi_request "secret" "cricbuzz-cricket.p.rapidapi.com"
                "mcenter/v1/41881" None RAPIDAPI_DEFAULT_BASE]
             (RequestException "Read timed out.")); reflexivity.
Defined.

(** ** Normalized entries *)

Lemma obind_Returns {A B} (c : outcome A) (k : A -> outcome B) (b : B) :
  obind c k = Returns b -> exists a, c = Returns a /\ k a = Returns b.
Proof.
  destruct c as [a|e]; simpl; intros H; [eauto | discriminate H].
Qed.

(** Peel the successive bindings of a normalizer that returned. *)
Ltac peel H :=
  repeat (let a := fresh "v" in
          let E := fresh "E" in
          apply obind_Returns in H; destruct H as (a & E & H)).

Lemma get_dict d k : get (VDict d) k = Returns (dget d k).
Proof. reflexivity. Qed.

Lemma get_Returns m k v : get m k = Returns v -> exists d, m = VDict d /\ v = dget d k.
Proof.
  destruct m; simpl; intros H; try discriminate H.
  inversion H. eauto.
Qed.

Lemma str_upper_Returns v w :
  str_upper v = Returns w -> exists s, v = VStr s /\ w = VStr (upper s).
Proof.
  destruct v; simpl; intros H; try discriminate H.
  inversion H. eauto.
Qed.

Lemma truthy_nonempty (x : string) : x <> "" -> truthy (VStr x) = true.
Proof. destruct x; [congruence | reflexivity]. Qed.

Lemma for_each_Forall2 {A B} (f : A -> outcome B) (l : list A) (bs : list B) :
  for_each f l = Returns bs -> Forall2 (fun a b => f a = Returns b) l bs.
Proof.
  revert bs; induction l as [|a l IH]; simpl; intros bs H.
  - inversion H. constructor.
  - peel H. inversion H. constructor; auto.
Qed.

Lemma to_card_status type m c :
  to_card type m = Returns c ->
  exists d, m = VDict d /\ primary_status_spec type d c.
Proof.
  intros H. unfold to_card in H.
  apply obind_Returns in H. destruct H as (a & Ea & H).
  apply get_Returns in Ea. destruct Ea as (d & -> & _).
  exists d. split; [reflexivity|].
  rewrite !get_dict in H. cbn [obind] in H.
  apply obind_Returns in H. destruct H as (status & Es & H).
  peel H. inversion H; subst c; clear H. unfold primary_status_spec, field.
  cbn [lookup String.eqb Ascii.eqb Bool.eqb].
  unfold dget in Es.
  destruct (lookup "status" d) as [sv|] eqn:El.
  - destruct (truthy sv) eqn:Tv.
    + cbn [obind] in Es. apply str_upper_Returns in Es. destruct Es as (s & -> & ->).
      repeat apply conj.
      * eauto.
      * intros x Hx _. inversion Hx. reflexivity.
      * discriminate.
      * intros v' Hv' Hf. inversion Hv'; subst v'. congruence.
    + inversion Es; subst status. repeat apply conj.
      * eauto.
      * intros x Hx Hne. inversion Hx; subst sv.
        rewrite (truthy_nonempty x Hne) in Tv. discriminate Tv.
      * discriminate.
      * reflexivity.
  - simpl in Es. inversion Es; subst status. repeat apply conj.
    + eauto.
    + discriminate.
    + reflexivity.
    + discriminate.
Qed.

Lemma rapid_card_status type m c :
  rapid_card type m = Returns c ->
  exists d, m = VDict d /\ alternate_status_spec type d c.
Proof.
  intros H. unfold rapid_card in H.
  apply obind_Returns in H. destruct H as (a & Ea & H).
  apply get_Returns in Ea. destruct Ea as (d & -> & _).
  exists d. split; [reflexivity|].
  apply obind_Returns in H. destruct H as (id & _ & H).
  rewrite get_dict in H. cbn [obind] in H.
  apply obind_Returns in H. destruct H as (st & Est & H).
  apply obind_Returns in H. destruct H as (status & Es & H).
  peel H. inversion H; subst c; clear H. unfold alternate_status_spec, field.
  cbn [lookup String.eqb Ascii.eqb Bool.eqb].
  apply str_upper_Returns in Es. destruct Es as (s & -> & ->).
  split; [eauto|].
  destruct (truthy (dget d "matchState")) eqn:Tm.
  - inversion Est as [Hs]. repeat apply conj.
    + intros x Hx _. unfold dget in Hs. rewrite Hx in Hs. inversion Hs. reflexivity.
    + discriminate.
    + discriminate.
  - simpl in Est. repeat apply conj.
    + intros x Hx Hne. unfold dget in Tm. rewrite Hx in Tm.
      rewrite (truthy_nonempty x Hne) in Tm. discriminate Tm.
    + intros _ x Hx. rewrite Hx in Est. inversion Est. reflexivity.
    + intros _ Hx. rewrite Hx in Est. inversion Est. reflexivity.
Qed.

Lemma get_matches_returns (cfg : config) (net : transport) (type : string)
  (log log' : list request) (resp : value) :
  get_matches cfg net type log = (Returns resp, log') ->
  exists data,
    fetched_payload cfg net type log data /\
    if String.eqb (API_PROVIDER cfg) "sportmonks"
    then primary_matches type data = Returns resp
    else alternate_matches type data = Returns resp.
Proof.
  unfold get_matches. rewrite try_reraise_or_500.
  destruct (get_matches_body cfg net type log) as [o l] eqn:E. cbn [fst snd].
  intros H. destruct o as [v|e]; [|destruct e; discriminate H].
  inversion H; subst v l; clear H.
  unfold get_matches_body in E. unfold fetched_payload.
  destruct (String.eqb (API_PROVIDER cfg) "sportmonks").
  - unfold bind at 1 in E. unfold lift at 1 in E.
    destruct (subscript sportmonks_endpoints type) as [endpoint|e]; [|discriminate E].
    unfold bind at 1 in E. fold include_list in E.
    destruct (sportmonks_get cfg net endpoint _ log) as [[data|e] l1] eqn:Ef;
      [|discriminate E].
    exists data. split; [exists endpoint; rewrite Ef; split; reflexivity|].
    unfold primary_matches. unfold bind, lift, ret in E.
    destruct (get_default data "data" (VList [])) as [raw|e]; [|discriminate E].
    cbn [obind] in *.
    destruct (py_iter raw) as [l|e]; [|discriminate E]. cbn [obind] in *.
    destruct (for_each (to_card type) l); [|discriminate E].
    inversion E. reflexivity.
  - unfold bind at 1 in E. unfold lift at 1 in E.
    destruct (subscript rapidapi_paths type) as [path|e]; [|discriminate E].
    unfold bind at 1 in E.
    destruct (rapidapi_get cfg net path None _ log) as [[data|e] l1] eqn:Ef;
      [|discriminate E].
    exists data. split; [exists path; rewrite Ef; split; reflexivity|].
    unfold alternate_matches. unfold bind, lift, ret in E.
    destruct (rapid_items data) as [raw|e]; [|discriminate E].
    cbn [obind] in *.
    destruct (py_iter raw) as [l|e]; [|discriminate E]. cbn [obind] in *.
    destruct (for_each (rapid_card type) l); [|discriminate E].
    inversion E. reflexivity.
Qed.

(** C1, as the specification words it, does not hold.  A primary-provider
    record that carries the empty string as its status gets the requested
    type, not its own status upper-cased.  An alternate-provider record that
    carries both [matchState] and [status] gets [matchState] upper-cased,
    not its [status]; and one with [matchState] and no [status] gets
    [matchState] upper-cased, not the requested type. *)
Lemma status_claim_refuted :
  (field empty_status_record "status" = Some (VStr "") /\
   entry_status
     (fst (get_matches cfg_primary
             (net_const (ok_json (VDict [("data", VList [empty_status_record])])))
             "live" [])) 0 = Some (VStr "LIVE") /\
   VStr "LIVE" <> VStr (upper "")) /\
  (field two_status_record "status" = Some (VStr "Stumps") /\
   entry_status
     (fst (get_matches cfg_alternate
             (net_const (ok_json (VDict [("matches", VList [two_status_record])])))
             "live" [])) 0 = Some (VStr "COMPLETE") /\
   VStr "COMPLETE" <> VStr (upper "Stumps")) /\
  (field state_only_record "status" = None /\
   entry_status
     (fst (get_matches cfg_alternate
             (net_const (ok_json (VDict [("matches", VList [state_only_record])])))
             "live" [])) 0 = Some (VStr "IN PROGRESS") /\
   VStr "IN PROGRESS" <> VStr (upper "live")).
Proof.
  repeat apply conj; try reflexivity; vm_compute; discriminate.
Qed.

(** C1 (amended). For every type and either provider, the entries of the
    response the matches list returns are, in order, the normalizations of
    the records of the payload the provider's client returned, and every
    entry has a string for status.  Primary provider: the record's status
    upper-cased when it is a non-empty string, the requested type upper-cased
    when the status is absent, null or empty.  Alternate provider: the
    record's matchState upper-cased when it is a non-empty string; otherwise
    the record's status upper-cased, and the requested type upper-cased when
    the record has neither. *)
Theorem matches_status (cfg : config) (net : transport) (type : string)
  (log log' : list request) (resp : value) :
  get_matches cfg net type log = (Returns resp, log') ->
  exists data items raw cards,
    fetched_payload cfg net type log data /\
    payload_items cfg data = Returns items /\
    py_iter items = Returns raw /\
    resp = VDict [("type", VStr type); ("matches", VList cards)] /\
    Forall2 (fun m c =>
               exists d, m = VDict d /\
                 if String.eqb (API_PROVIDER cfg) "sportmonks"
                 then to_card type m = Returns c /\ primary_status_spec type d c
                 else rapid_card type m = Returns c /\ alternate_status_spec type d c)
            raw cards.
Proof.
  intros H. apply get_matches_returns in H. destruct H as (data & Hf & H).
  exists data. unfold payload_items.
  destruct (String.eqb (API_PROVIDER cfg) "sportmonks").
  - unfold primary_matches in H.
    apply obind_Returns in H. destruct H as (items & Ei & H).
    apply obind_Returns in H. destruct H as (raw & Er & H).
    apply obind_Returns in H. destruct H as (cards & Ec & H).
    inversion H; subst resp; clear H.
    exists items, raw, cards. repeat (split; [assumption || reflexivity|]).
    apply for_each_Forall2 in Ec. revert Ec. apply Forall2_impl. intros m c Hm.
    destruct (to_card_status type m c Hm) as (d & Em & Hs).
    exists d. split; [exact Em|]. split; assumption.
  - unfold alternate_matches in H.
    apply obind_Returns in H. destruct H as (items & Ei & H).
    apply obind_Returns in H. destruct H as (raw & Er & H).
    apply obind_Returns in H. destruct H as (cards & Ec & H).
    inversion H; subst resp; clear H.
    exists items, raw, cards. repeat (split; [assumption || reflexivity|]).
    apply for_each_Forall2 in Ec. revert Ec. apply Forall2_impl. intros m c Hm.
    destruct (rapid_card_status type m c Hm) as (d & Em & Hs).
    exists d. split; [exact Em|]. split; assumption.
Qed.

Lemma matches_status_witness :
  exists raw cards,
    fst (get_matches cfg_primary
           (net_const (ok_json (VDict [("data", VList [live_record; bare_record])])))
           "upcoming" []) =
      Returns (VDict [("type", VStr "upcoming"); ("matches", VList cards)]) /\
    map (fun c => field c "status") cards =
      [Some (VStr "LIVE"); Some (VStr "UPCOMING")] /\
    Forall2 (fun m c =>
               exists d, m = VDict d /\
                 to_card "upcoming" m = Returns c /\ primary_status_spec "upcoming" d c)
            raw cards.
Proof.
  destruct (matches_status cfg_primary
              (net_const (ok_json (VDict [("data", VList [live_record; bare_record])])))
              "upcoming" []
              [sportmonks_request cfg_primary "secret" "fixtures" (Some include_list)]
              (VDict [("type", VStr "upcoming");
                      ("matches", VList
                         match for_each (to_card "upcoming") [live_record; bare_record] with
                         | Returns cs => cs
                         | Raises _ => []
                         end)])
              eq_refl)
    as (data & items & raw & cards & _ & _ & _ & Hresp & Hall).
  exists raw, cards. inversion Hresp; subst cards.
  split; [reflexivity | split; [reflexivity | exact Hall]].
Defined.

(** ** Absent sub-objects *)

Lemma por_object d k :
  object_or_falsy d k = true -> exists d', por (dget d k) empty_dict = VDict d'.
Proof.
  unfold object_or_falsy, por. destruct (truthy (dget d k)); simpl.
  - destruct (dget d k); try discriminate. eauto.
  - intros _. exists []. reflexivity.
Qed.

Lemma sub_get_dict d k f :
  object_or_falsy d k = true -> exists v, sub_get (VDict d) k f = Returns v.
Proof.
  intros H. destruct (por_object d k H) as (d' & E).
  unfold sub_get. rewrite get_dict. cbn [obind]. rewrite E. eexists. reflexivity.
Qed.

Lemma sub_get_default_dict d k f :
  object_or_absent d k = true -> exists v, sub_get_default (VDict d) k f = Returns v.
Proof.
  unfold object_or_absent, sub_get_default, get_default. intros H.
  destruct (lookup k d) as [v|]; cbn [obind].
  - destruct v; try discriminate H. eexists. reflexivity.
  - eexists. reflexivity.
Qed.

Lemma to_card_typed type d :
  primary_typed d = true -> exists c, to_card type (VDict d) = Returns c.
Proof.
  unfold primary_typed. intros H.
  apply andb_prop in H. destruct H as [H Hv].
  apply andb_prop in H. destruct H as [H Hvt].
  apply andb_prop in H. destruct H as [Hs Hlt].
  destruct (por_object d _ Hlt) as (dl & El).
  destruct (por_object d _ Hvt) as (dv & Ev).
  destruct (por_object d _ Hv) as (dn & En).
  unfold to_card. rewrite !get_dict. cbn [obind]. rewrite El, Ev, En.
  rewrite !get_dict. cbn [obind].
  destruct (truthy (dget d "status")).
  - simpl in Hs. destruct (dget d "status"); try discriminate Hs.
    cbn [str_upper obind]. eexists. reflexivity.
  - cbn [obind]. eexists. reflexivity.
Qed.

Lemma rapid_card_typed type d :
  alternate_typed d = true -> exists c, rapid_card type (VDict d) = Returns c.
Proof.
  unfold alternate_typed. intros H.
  apply andb_prop in H. destruct H as [H Hv].
  apply andb_prop in H. destruct H as [H H2].
  apply andb_prop in H. destruct H as [Hs H1].
  destruct (sub_get_dict d "team1" "teamName" H1) as (a1 & E1).
  destruct (sub_get_dict d "team1" "teamSName" H1) as (a2 & E2).
  destruct (sub_get_dict d "team2" "teamName" H2) as (a3 & E3).
  destruct (sub_get_dict d "team2" "teamSName" H2) as (a4 & E4).
  destruct (sub_get_default_dict d "venueInfo" "ground" Hv) as (a5 & E5).
  destruct (sub_get_default_dict d "venueInfo" "city" Hv) as (a6 & E6).
  unfold rapid_card. rewrite E1, E2, E3, E4, E5, E6. rewrite !get_dict. cbn [obind].
  assert (Hid : exists id,
             (if truthy (dget d "matchId") then Returns (dget d "matchId")
              else Returns (dget d "id")) = Returns id).
  { destruct (truthy (dget d "matchId")); eexists; reflexivity. }
  destruct Hid as (id & ->). cbn [obind].
  destruct (truthy (dget d "matchState")).
  - destruct (dget d "matchState"); try discriminate Hs.
    cbn [str_upper obind]. eexists. reflexivity.
  - unfold get_default. destruct (lookup "status" d) as [v|].
    + destruct v; try discriminate Hs. cbn [str_upper obind]. eexists. reflexivity.
    + cbn [str_upper obind]. eexists. reflexivity.
Qed.

(** Close the equations left by [peel] once the absent field is known. *)
Ltac settle_absent Hn :=
  unfold dget in *; rewrite Hn in *; cbn in *;
  repeat match goal with
         | E : Returns _ = Returns _ |- _ => inversion E; clear E; subst
         end;
  reflexivity.

Lemma to_card_absent type d c :
  to_card type (VDict d) = Returns c ->
  (lookup "localteam" d = None -> field c "localteam" = Some null_team) /\
  (lookup "visitorteam" d = None -> field c "visitorteam" = Some null_team) /\
  (lookup "venue" d = None -> field c "venue" = Some null_venue).
Proof.
  intros H. unfold to_card in H. rewrite !get_dict in H. cbn [obind] in H.
  peel H. inversion H; subst c; clear H.
  unfold field, null_team, null_venue. cbn [lookup String.eqb Ascii.eqb Bool.eqb].
  repeat apply conj; intros Hn; settle_absent Hn.
Qed.

Lemma rapid_card_absent type d c :
  rapid_card type (VDict d) = Returns c ->
  (lookup "team1" d = None -> field c "localteam" = Some null_team_alt) /\
  (lookup "team2" d = None -> field c "visitorteam" = Some null_team_alt) /\
  (lookup "venueInfo" d = None -> field c "venue" = Some null_venue).
Proof.
  intros H. unfold rapid_card, sub_get, sub_get_default in H.
  unfold get_default in H. rewrite !get_dict in H. cbn [obind] in H.
  peel H. inversion H; subst c; clear H.
  unfold field, null_team_alt, null_venue. cbn [lookup String.eqb Ascii.eqb Bool.eqb].
  repeat apply conj; intros Hn; settle_absent Hn.
Qed.

(** A sub-object whose key is absent.  Primary provider: a record whose
    fields have the provider's types is normalized, and whenever [to_card]
    returns, an absent [localteam], [visitorteam] or [venue] gives id, name,
    code (or name, city) all null.  Alternate provider: the same for
    [team1], [team2] and [venueInfo], where a typed record may hold null for
    a team but not for [venueInfo]. *)
Theorem absent_subobject_null (type : string) (d : list (string * value)) :
  (primary_typed d = true -> exists c, to_card type (VDict d) = Returns c) /\
  (forall c, to_card type (VDict d) = Returns c ->
     (lookup "localteam" d = None -> field c "localteam" = Some null_team) /\
     (lookup "visitorteam" d = None -> field c "visitorteam" = Some null_team) /\
     (lookup "venue" d = None -> field c "venue" = Some null_venue)) /\
  (alternate_typed d = true -> exists c, rapid_card type (VDict d) = Returns c) /\
  (forall c, rapid_card type (VDict d) = Returns c ->
     (lookup "team1" d = None -> field c "localteam" = Some null_team_alt) /\
     (lookup "team2" d = None -> field c "visitorteam" = Some null_team_alt) /\
     (lookup "venueInfo" d = None ->
        field c "venue" = Some (VDict [("name", VNone); ("city", VNone)]))).
Proof.
  repeat apply conj.
  - apply to_card_typed.
  - apply to_card_absent.
  - apply rapid_card_typed.
  - apply rapid_card_absent.
Qed.

Lemma absent_subobject_null_witness :
  (exists c, rapid_card "upcoming" (VDict no_venue_record) = Returns c /\
             field c "venue" = Some (VDict [("name", VNone); ("city", VNone)]) /\
             field c "visitorteam" = Some null_team_alt) /\
  (exists c, to_card "live" (VDict [("id", VInt 1)]) = Returns c /\
             field c "localteam" = Some null_team /\
             field c "visitorteam" = Some null_team /\
             field c "venue" = Some null_venue).
Proof.
  destruct (absent_subobject_null "upcoming" no_venue_record) as (_ & _ & Ht & Ha).
  destruct (absent_subobject_null "live" [("id", VInt 1)]) as (Pt & Pa & _ & _).
  split.
  - destruct Ht as (c & Ec); [reflexivity|].
    exists c. destruct (Ha c Ec) as (_ & H2 & H3).
    split; [exact Ec|]. split; [apply H3 | apply H2]; reflexivity.
  - destruct Pt as (c & Ec); [reflexivity|].
    exists c. destruct (Pa c Ec) as (H1 & H2 & H3).
    split; [exact Ec|]. repeat apply conj; [apply H1 | apply H2 | apply H3]; reflexivity.
Defined.

(** C4. An alternate-provider record whose [venueInfo] is null is not
    normalized: the default of [m.get("venueInfo", {})] stands for an absent
    key only, the lookup on null raises, and the matches list ends in a 500
    instead of giving the venue with name and city null.  The same record
    with a null [team1], read as [m.get("team1") or {}], is normalized with
    null names, and so is a primary-provider record with a null [venue]. *)
Theorem null_venueInfo_fails :
  rapid_card "live" (VDict [("matchId", VInt 1); ("venueInfo", VNone)]) =
    Raises (AttributeError "NoneType" "get") /\
  fst (get_matches cfg_alternate
         (net_const (ok_json (VDict [("matches",
            VList [VDict [("matchId", VInt 1); ("venueInfo", VNone)]])])))
         "live" []) =
    Raises (HTTPException 500 "'NoneType' object has no attribute 'get'") /\
  (exists c, rapid_card "live" (VDict [("matchId", VInt 1); ("team1", VNone)]) = Returns c /\
             field c "localteam" = Some null_team_alt /\
             field c "venue" = Some null_venue) /\
  (exists c, to_card "live" (VDict [("id", VInt 1); ("venue", VNone)]) = Returns c /\
             field c "venue" = Some null_venue).
Proof.
  repeat apply conj; try reflexivity; eexists; repeat split.
Qed.

(** A [venueInfo] that is present but null is another matter: the default
    of [m.get("venueInfo", {})] is not used and the lookup on it raises. *)
Example null_venueInfo_raises :
  rapid_card "live" (VDict [("matchId", VInt 1); ("venueInfo", VNone)]) =
    Raises (AttributeError "NoneType" "get").
Proof. reflexivity. Qed.

(** ** The items of the alternate provider's payload *)

Lemma get_matches_alternate_200 (cfg : config) (net : transport) (type path key host : string)
  (log : list request) (r : response) (data : value) :
  API_PROVIDER cfg <> "sportmonks" ->
  env_set (RAPIDAPI_KEY cfg) = Some key ->
  env_set (RAPIDAPI_HOST cfg) = Some host ->
  subscript rapidapi_paths type = Returns path ->
  net log (rapidapi_request key host path None RAPIDAPI_DEFAULT_BASE) = inr r ->
  status_code r = 200 ->
  json r = inr data ->
  fst (get_matches cfg net type log) = guarded (alternate_matches type data).
Proof.
  intros Hp Hk Hh He Hn Hs Hj.
  unfold get_matches. rewrite try_reraise_or_500.
  rewrite (get_matches_body_alternate cfg net type path key host log Hp He Hk Hh).
  cbv zeta. rewrite Hn. unfold fetched. rewrite Hs, Hj. reflexivity.
Qed.

(** C10. The fallback of [data.get("matches", data)] never yields a record.
    For the alternate provider and a 200 answer that decodes to a payload
    without a [matches] field, the matches list returns an entry in no case:
    a payload that is not an object (the list of records itself, say) has no
    [get], and the handler ends in the 500; an object is looped over through
    its keys, which are no records, so the handler ends in the 500 as well,
    unless the object is empty, which gives the response without entries.
    (A payload whose [matches] is the empty list gives that response too.) *)
Theorem fallback_never_yields_a_record (cfg : config) (net : transport)
  (type path key host : string) (log : list request) (r : response) (data : value) :
  API_PROVIDER cfg <> "sportmonks" ->
  env_set (RAPIDAPI_KEY cfg) = Some key ->
  env_set (RAPIDAPI_HOST cfg) = Some host ->
  subscript rapidapi_paths type = Returns path ->
  net log (rapidapi_request key host path None RAPIDAPI_DEFAULT_BASE) = inr r ->
  status_code r = 200 ->
  json r = inr data ->
  (forall d, data = VDict d -> lookup "matches" d = None) ->
  fst (get_matches cfg net type log) =
    match data with
    | VDict [] => Returns (VDict [("type", VStr type); ("matches", VList [])])
    | VDict (_ :: _) => Raises (HTTPException 500 "'str' object has no attribute 'get'")
    | _ => Raises (HTTPException 500
                     ("'" ++ type_name data ++ "' object has no attribute 'get'"))
    end.
Proof.
  intros Hp Hk Hh He Hn Hs Hj Hm.
  rewrite (get_matches_alternate_200 cfg net type path key host log r data
             Hp Hk Hh He Hn Hs Hj).
  unfold alternate_matches, rapid_items, get_default.
  destruct data as [| b | n | x | s | l | d]; try reflexivity.
  rewrite (Hm d eq_refl). destruct d as [|[k v] d']; reflexivity.
Qed.

Lemma fallback_never_yields_a_record_witness :
  fst (get_matches cfg_alternate
         (net_const (ok_json (VList [VDict [("matchId", VInt 1)]]))) "live" []) =
    Raises (HTTPException 500 "'list' object has no attribute 'get'") /\
  fst (get_matches cfg_alternate
         (net_const (ok_json (VDict [("typeMatches", VList [VDict [("matchId", VInt 1)]])])))
         "completed" []) =
    Raises (HTTPException 500 "'str' object has no attribute 'get'").
Proof.
  split.
  - apply (fallback_never_yields_a_record cfg_alternate
             (net_const (ok_json (VList [VDict [("matchId", VInt 1)]])))
             "live" "matches/v1/live" "secret" "cricbuzz-cricket.p.rapidapi.com"
             [] (ok_json (VList [VDict [("matchId", VInt 1)]]))
             (VList [VDict [("matchId", VInt 1)]]));
      try reflexivity; discriminate.
  - apply (fallback_never_yields_a_record cfg_alternate
             (net_const (ok_json (VDict [("typeMatches", VList [VDict [("matchId", VInt 1)]])])))
             "completed" "matches/v1/recent" "secret" "cricbuzz-cricket.p.rapidapi.com"
             [] (ok_json (VDict [("typeMatches", VList [VDict [("matchId", VInt 1)]])]))
             (VDict [("typeMatches", VList [VDict [("matchId", VInt 1)]])]));
      try reflexivity; try discriminate.
    intros d Hd. inversion Hd. reflexivity.
Defined.

(** A payload whose [matches] is the empty list gives the response with the
    requested type and no entry. *)
Example empty_matches_payload :
  fst (get_matches cfg_alternate
         (net_const (ok_json (VDict [("matches", VList [])]))) "completed" []) =
    Returns (VDict [("type", VStr "completed"); ("matches", VList [])]).
Proof. reflexivity. Qed.

(** A payload that is itself the list of records never reaches the loop:
    a list has no [get]. *)
Example list_payload_raises :
  fst (get_matches cfg_alternate
         (net_const (ok_json (VList [VDict [("matchId", VInt 1)]]))) "live" []) =
    Raises (HTTPException 500 "'list' object has no attribute 'get'").
Proof. reflexivity. Qed.

(** ** Rankings *)

Lemma rankings_step_answered (net : transport) (format cat : string)
  (players : list (string * value)) (log : list request) (r : response) :
  net log (rankings_request format cat) = inr r ->
  decodable r = true ->
  rankings_step net format players cat log =
    (Returns (if status_code r =? 200 then setitem cat (slot r) players else players),
     (log ++ [rankings_request format cat])%list).
Proof.
  intros Hn Hd. unfold rankings_step, bind, requests_get.
  fold (rankings_request format cat). rewrite Hn.
  unfold decodable in Hd. unfold slot.
  destruct (status_code r =? 200); [|reflexivity].
  unfold r_json. destruct (json r); [discriminate Hd | reflexivity].
Qed.

(** C3. The rankings handler does fail wholesale.  When the sub-requests
    fail at the network level, its [except] clause turns the first failure
    into a 500 after a single request, and the client receives neither the
    teams nor the three player categories; a 200 answer whose body does not
    decode ends the same way.  The news handler, beside it, drops a failing
    source and still returns its (empty) list. *)
Theorem rankings_wholesale_failure :
  get_rankings (net_down "Connection refused") "odi" [] =
    (Raises (HTTPException 500 "Connection refused"), [rankings_request "odi" "teams"]) /\
  code (respond (fst (get_rankings (net_down "Connection refused") "odi" []))) = 500 /\
  fst (get_rankings (net_const (mkResponse 200 "<html>" (inl "Expecting value"))) "test" [])
    = Raises (HTTPException 500 "Expecting value") /\
  get_news_from (fun _ => inl "Connection refused") NEWS_SOURCES =
    VDict [("items", VList [])].
Proof.
  repeat apply conj; reflexivity.
Qed.

(** Where the rankings handler does tolerate a failure: for every format,
    when each of the four sub-requests (teams, then batting, bowling,
    allrounder) is answered, with whatever status, and the answers with
    status 200 decode, the handler returns, the client receiving status 200:
    the format, the teams, and exactly the three player categories in their
    order, where an answer with a status other than 200 leaves the empty list
    in its slot, also when all four are such; four requests are issued. *)
Theorem rankings_partial_results (net : transport) (format : string)
  (log : list request) (r0 r1 r2 r3 : response) :
  let q0 := rankings_request format "teams" in
  let q1 := rankings_request format "batting" in
  let q2 := rankings_request format "bowling" in
  let q3 := rankings_request format "allrounder" in
  net log q0 = inr r0 ->
  net (log ++ [q0])%list q1 = inr r1 ->
  net (log ++ [q0; q1])%list q2 = inr r2 ->
  net (log ++ [q0; q1; q2])%list q3 = inr r3 ->
  decodable r0 = true -> decodable r1 = true ->
  decodable r2 = true -> decodable r3 = true ->
  get_rankings net format log =
    (Returns (VDict [("format", VStr format);
                     ("teams", slot r0);
                     ("players", VDict [("batting", slot r1);
                                        ("bowling", slot r2);
                                        ("allrounder", slot r3)])]),
     (log ++ [q0; q1; q2; q3])%list) /\
  code (respond (fst (get_rankings net format log))) = 200 /\
  (status_code r0 <> 200 -> slot r0 = VList []) /\
  (status_code r1 <> 200 -> slot r1 = VList []) /\
  (status_code r2 <> 200 -> slot r2 = VList []) /\
  (status_code r3 <> 200 -> slot r3 = VList []).
Proof.
  intros q0 q1 q2 q3 H0 H1 H2 H3 D0 D1 D2 D3.
  assert (Hslot : forall r, status_code r <> 200 -> slot r = VList []).
  { intros r Hr. unfold slot. apply Z.eqb_neq in Hr. rewrite Hr. reflexivity. }
  assert (Hrun : get_rankings net format log =
    (Returns (VDict [("format", VStr format);
                     ("teams", slot r0);
                     ("players", VDict [("batting", slot r1);
                                        ("bowling", slot r2);
                                        ("allrounder", slot r3)])]),
     (log ++ [q0; q1; q2; q3])%list)).
  { unfold get_rankings, try_except, get_rankings_body.
    unfold bind at 1. unfold requests_get at 1.
    change (mkRequest (rankings_url format "teams") [] [] 15) with q0. rewrite H0.
    unfold bind at 1.
    assert (Ht : (if status_code r0 =? 200 then r_json r0 else ret (VList []))
                   (log ++ [q0])%list = (Returns (slot r0), (log ++ [q0])%list)).
    { unfold slot, decodable, r_json, ret in *.
      destruct (status_code r0 =? 200); [|reflexivity].
      destruct (json r0); [discriminate D0 | reflexivity]. }
    rewrite Ht. unfold bind at 1.
    cbn [map fst players_init rankings_loop].
    unfold bind at 1.
    rewrite (rankings_step_answered net format "batting" _ _ r1 H1 D1).
    unfold bind at 1.
    replace ((log ++ [q0]) ++ [rankings_request format "batting"])%list
      with (log ++ [q0; q1])%list by (rewrite <- app_assoc; reflexivity).
    rewrite (rankings_step_answered net format "bowling" _ _ r2 H2 D2).
    unfold bind at 1.
    replace ((log ++ [q0; q1]) ++ [rankings_request format "bowling"])%list
      with (log ++ [q0; q1; q2])%list by (rewrite <- app_assoc; reflexivity).
    rewrite (rankings_step_answered net format "allrounder" _ _ r3 H3 D3).
    replace ((log ++ [q0; q1; q2]) ++ [rankings_request format "allrounder"])%list
      with (log ++ [q0; q1; q2; q3])%list by (rewrite <- app_assoc; reflexivity).
    unfold ret.
    assert (Hp : (if status_code r3 =? 200
                  then setitem "allrounder" (slot r3)
                         (if status_code r2 =? 200
                          then setitem "bowling" (slot r2)
                                 (if status_code r1 =? 200
                                  then setitem "batting" (slot r1) players_init
                                  else players_init)
                          else (if status_code r1 =? 200
                                then setitem "batting" (slot r1) players_init
                                else players_init))
                  else (if status_code r2 =? 200
                        then setitem "bowling" (slot r2)
                               (if status_code r1 =? 200
                                then setitem "batting" (slot r1) players_init
                                else players_init)
                        else (if status_code r1 =? 200
                              then setitem "batting" (slot r1) players_init
                              else players_init)))
                 = [("batting", slot r1); ("bowling", slot r2); ("allrounder", slot r3)]).
    { unfold slot.
      destruct (status_code r1 =? 200), (status_code r2 =? 200), (status_code r3 =? 200);
        reflexivity. }
    rewrite Hp. reflexivity. }
  rewrite Hrun. repeat apply conj; auto.
Qed.

Lemma rankings_partial_results_witness :
  fst (get_rankings net_batting_only "t20" []) =
    Returns (VDict [("format", VStr "t20");
                    ("teams", VList []);
                    ("players",
                     VDict [("batting",
                             VList [VDict [("name", VStr "Babar Azam"); ("rank", VInt 1)]]);
                            ("bowling", VList []);
                            ("allrounder", VList [])])]) /\
  fst (get_rankings (net_const unavailable) "odi" []) =
    Returns (VDict [("format", VStr "odi");
                    ("teams", VList []);
                    ("players", VDict [("batting", VList []);
                                       ("bowling", VList []);
                                       ("allrounder", VList [])])]).
Proof.
  split.
  - pose proof (rankings_partial_results net_batting_only "t20" []
                  unavailable
                  (ok_json (VList [VDict [("name", VStr "Babar Azam"); ("rank", VInt 1)]]))
                  unavailable unavailable
                  eq_refl eq_refl eq_refl eq_refl eq_refl eq_refl eq_refl eq_refl)
      as (E & _).
    rewrite E. reflexivity.
  - pose proof (rankings_partial_results (net_const unavailable) "odi" []
                  unavailable unavailable unavailable unavailable
                  eq_refl eq_refl eq_refl eq_refl eq_refl eq_refl eq_refl eq_refl)
      as (E & _).
    rewrite E. reflexivity.
Defined.

(** A 200 answer whose body does not decode also ends in the 500. *)
Example rankings_undecodable_500 :
  fst (get_rankings (net_const (mkResponse 200 "<html>" (inl "Expecting value"))) "test" []) =
    Raises (HTTPException 500 "Expecting value").
Proof. reflexivity. Qed.

(** ** News *)

Lemma append_entries_items meta es items :
  snd (append_entries meta es items) = (items ++ items_until_error meta es)%list.
Proof.
  revert items; induction es as [|e es IH]; intros items; simpl.
  - now rewrite app_nil_r.
  - destruct (news_item meta e) as [it|x]; simpl.
    + rewrite IH, <- app_assoc. reflexivity.
    + now rewrite app_nil_r.
Qed.

Lemma news_loop_items parse sources items :
  news_loop parse sources items = (items ++ flat_map (feed_items parse) sources)%list.
Proof.
  revert items; induction sources as [|src rest IH]; intros items; simpl.
  - now rewrite app_nil_r.
  - unfold feed_items at 1. destruct (parse src) as [msg|f].
    + apply IH.
    + rewrite IH, append_entries_items, <- app_assoc. reflexivity.
Qed.

Lemma items_until_error_length meta es :
  (length (items_until_error meta es) <= length es)%nat.
Proof.
  induction es as [|e es IH]; simpl; [lia|].
  destruct (news_item meta e); simpl; lia.
Qed.

Lemma items_until_error_all meta es its :
  for_each (news_item meta) es = Returns its -> items_until_error meta es = its.
Proof.
  revert its; induction es as [|e es IH]; simpl; intros its H.
  - now inversion H.
  - peel H. inversion H; subst its.
    match goal with E : news_item _ _ = _ |- _ => rewrite E end.
    f_equal. now apply IH.
Qed.

(** C7. Whatever the sources and their entries, the news handler returns
    the first 50 of the items of the sources taken in order, each source
    contributing the items of its first 20 entries in their order: at most
    50 items overall, at most 20 per source, none for a source whose parse
    raises, and the normalization of exactly the first 20 entries when they
    all normalize. *)
Theorem news_items (parse : feedparser) (sources : list string) :
  get_news_from parse sources =
    VDict [("items", VList (firstn 50 (flat_map (feed_items parse) sources)))] /\
  get_news parse =
    VDict [("items", VList (firstn 50 (flat_map (feed_items parse) NEWS_SOURCES)))] /\
  (length (firstn 50 (flat_map (feed_items parse) sources)) <= 50)%nat /\
  (forall src, length (feed_items parse src) <= 20)%nat /\
  (forall src msg, parse src = inl msg -> feed_items parse src = []) /\
  (forall src f its,
     parse src = inr f ->
     for_each (news_item (feed_meta f)) (firstn 20 (entries f)) = Returns its ->
     feed_items parse src = its).
Proof.
  repeat apply conj.
  - unfold get_news_from. rewrite news_loop_items. reflexivity.
  - unfold get_news, get_news_from. rewrite news_loop_items. reflexivity.
  - apply firstn_le_length.
  - intros src. unfold feed_items. destruct (parse src) as [msg|f].
    + cbn [length]. lia.
    + etransitivity; [apply items_until_error_length | apply firstn_le_length].
  - intros src msg H. unfold feed_items. rewrite H. reflexivity.
  - intros src f its H E. unfold feed_items. rewrite H.
    now apply items_until_error_all.
Qed.

Lemma news_items_witness :
  feed_items parse_demo "b" = [] /\
  length (feed_items parse_demo "a") = 20%nat /\
  map (fun it => field it "source") (firstn 2 (feed_items parse_demo "a")) =
    [Some (VStr "A"); Some (VStr "A")].
Proof.
  destruct (news_items parse_demo ["a"; "b"; "c"; "d"]) as (_ & _ & _ & _ & Hfail & Hok).
  split.
  - apply (Hfail "b" "not well-formed"). reflexivity.
  - rewrite (Hok "a" (feed_of "A" 25)
               (match for_each (news_item (VDict [("title", VStr "A")]))
                        (firstn 20 (map story (seq 0 25))) with
                | Returns l => l
                | Raises _ => []
                end) eq_refl eq_refl).
    split; reflexivity.
Defined.

(** 20 + 0 + 20 + 20 items are collected and 50 returned: the last ten of
    the fourth source are cut. *)
Example news_truncated :
  option_map (fun v => match v with VList l => length l | _ => O end)
    (field (get_news_from parse_demo ["a"; "b"; "c"; "d"]) "items") = Some 50%nat /\
  length (news_loop parse_demo ["a"; "b"; "c"; "d"] []) = 60%nat.
Proof. split; vm_compute; reflexivity. Qed.

(** An entry whose thumbnail is a number raises in the middle of its feed:
    the item before it stays, the rest of that feed is dropped, and the next
    source is still read. *)
Example news_partial_feed :
  let broken := mkFeed (VDict [])
                  [story 0; VDict [("media_thumbnail", VInt 3)]; story 2] in
  let parse : feedparser :=
    fun src => if String.eqb src "x" then inr broken else inr (feed_of "Y" 1) in
  map (fun it => field it "source") (news_loop parse ["x"; "y"] []) =
    [Some (VStr "RSS"); Some (VStr "Y")].
Proof. reflexivity. Qed.

(** A message longer than 200 characters is cut to its first 200. *)
Example long_message_truncated :
  let msg := String.concat "" (repeat "0123456789" 25) in
  match fst (get_matches cfg_primary (net_down msg) "live" []) with
  | Raises (HTTPException c d) =>
      c = 500 /\ String.length msg = 250%nat /\ String.length d = 200%nat /\
      String.prefix d msg = true
  | _ => False
  end.
Proof. vm_compute. repeat split. Qed.

(** The specification's example for the primary provider. *)
Example spec_example_primary :
  exists c, to_card "live" live_record = Returns c /\
            field c "status" = Some (VStr "LIVE") /\
            field c "localteam" =
              Some (VDict [("id", VInt 1); ("name", VStr "India"); ("code", VStr "IND")]).
Proof. eexists. repeat split. Qed.

(** The handler called with a type outside its tables (the route's pattern
    rejects such a type before the handler runs): the table lookup raises
    [KeyError], which the handler turns into a 500. *)
Example unsupported_type :
  get_matches cfg_primary (net_const (ok_json VNone)) "finished" [] =
    (Raises (HTTPException 500 "'finished'"), []).
Proof. reflexivity. Qed.

(** With the active provider's credential unset, the matches list and the
    match detail answer 501 and issue no request. *)
Lemma endpoints_unconfigured_501 (cfg : config) (net : transport) (log : list request) :
  (API_PROVIDER cfg = "sportmonks" -> env_set (CRICKET_API_KEY cfg) = None ->
   forall type endpoint match_id,
     subscript sportmonks_endpoints type = Returns endpoint ->
     get_matches cfg net type log =
       (Raises (HTTPException 501 "CRICKET_API_KEY not set for SportMonks"), log) /\
     get_match_details cfg net match_id log =
       (Raises (HTTPException 501 "CRICKET_API_KEY not set for SportMonks"), log)) /\
  (API_PROVIDER cfg <> "sportmonks" ->
   env_set (RAPIDAPI_KEY cfg) = None \/ env_set (RAPIDAPI_HOST cfg) = None ->
   forall type path match_id,
     subscript rapidapi_paths type = Returns path ->
     get_matches cfg net type log =
       (Raises (HTTPException 501 "RAPIDAPI_KEY or RAPIDAPI_HOST not configured"), log) /\
     get_match_details cfg net match_id log =
       (Raises (HTTPException 501 "RAPIDAPI_KEY or RAPIDAPI_HOST not configured"), log)).
Proof.
  split.
  - intros Hp Hk type endpoint match_id He.
    unfold get_matches, get_match_details, try_except, get_matches_body,
      get_match_details_body.
    rewrite Hp, String.eqb_refl. unfold bind, lift. rewrite He.
    unfold sportmonks_get. rewrite Hk. split; reflexivity.
  - intros Hp Hk type path match_id He. apply String.eqb_neq in Hp.
    unfold get_matches, get_match_details, try_except, get_matches_body,
      get_match_details_body.
    rewrite Hp. unfold bind, lift. rewrite He.
    unfold rapidapi_get. destruct Hk as [Hk|Hk]; rewrite Hk.
    + split; reflexivity.
    + destruct (env_set (RAPIDAPI_KEY cfg)); split; reflexivity.
Qed.

(** * Further properties of the code *)

(** ** Requests of the provider clients *)

Lemma lookup_setitem_eq k v d : lookup k (setitem k v d) = Some v.
Proof.
  induction d as [|[k' v'] d IH]; simpl.
  - now rewrite String.eqb_refl.
  - destruct (String.eqb k k') eqn:E; simpl.
    + now rewrite String.eqb_refl.
    + now rewrite E.
Qed.

Lemma lookup_setitem_ne k k' v d :
  k' <> k -> lookup k' (setitem k v d) = lookup k' d.
Proof.
  intros Hne. induction d as [|[k0 v0] d IH]; simpl.
  - apply String.eqb_neq in Hne. now rewrite Hne.
  - destruct (String.eqb k k0) eqn:E; simpl.
    + apply String.eqb_eq in E. subst k0.
      apply String.eqb_neq in Hne. now rewrite Hne.
    + destruct (String.eqb k' k0); auto.
Qed.

(** X1. With the key configured, [sportmonks_get] issues one request whose
    [api_token] parameter is the key, whatever the caller passed under that
    name; the caller's other parameters are passed on unchanged, and the
    request carries no header. *)
Theorem sportmonks_token_param (cfg : config) (net : transport) (key path : string)
  (ps : option (list (string * value))) (log : list request) :
  env_set (CRICKET_API_KEY cfg) = Some key ->
  exists rq,
    snd (sportmonks_get cfg net path ps log) = (log ++ [rq])%list /\
    lookup "api_token" (params rq) = Some (VStr key) /\
    (forall k, k <> "api_token" ->
       lookup k (params rq) = lookup k (match ps with Some p => p | None => [] end)) /\
    headers rq = [] /\ timeout rq = 15.
Proof.
  intros Hk. exists (sportmonks_request cfg key path ps).
  rewrite (sportmonks_get_configured cfg net key path ps log Hk).
  split; [destruct (net log _); reflexivity|].
  unfold sportmonks_request. cbn [params headers timeout].
  split; [apply lookup_setitem_eq|].
  split; [|split; reflexivity].
  intros k Hne. now apply lookup_setitem_ne.
Qed.

Lemma sportmonks_token_param_witness :
  exists rq,
    snd (sportmonks_get cfg_primary (net_down "timed out") "livescores"
           (Some [("api_token", VStr "forged"); ("include", VStr "venue")]) []) = [rq] /\
    lookup "api_token" (params rq) = Some (VStr "secret") /\
    lookup "include" (params rq) = Some (VStr "venue").
Proof.
  destruct (sportmonks_token_param cfg_primary (net_down "timed out") "secret" "livescores"
              (Some [("api_token", VStr "forged"); ("include", VStr "venue")]) [] eq_refl)
    as (rq & Hlog & Htok & Hrest & _).
  exists rq. split; [exact Hlog|]. split; [exact Htok|].
  rewrite (Hrest "include"); [reflexivity | discriminate].
Defined.

Lemma rstrip_slash_app_slash s : rstrip_slash (s ++ "/") = rstrip_slash s.
Proof.
  induction s as [|c s IH]; simpl; [reflexivity|]. now rewrite IH.
Qed.

Lemma rstrip_slash_no_trailing s : ends_with_slash (rstrip_slash s) = false.
Proof.
  induction s as [|c s IH]; simpl; [reflexivity|].
  destruct (rstrip_slash s) as [|c' r] eqn:E.
  - destruct (Ascii.eqb c "/") eqn:Ec; simpl; [reflexivity | exact Ec].
  - simpl in *. exact IH.
Qed.

Lemma lstrip_slash_no_leading s : starts_with_slash (lstrip_slash s) = false.
Proof.
  induction s as [|c s IH]; simpl; [reflexivity|].
  destruct (Ascii.eqb c "/") eqn:Ec.
  - apply Ascii.eqb_eq in Ec. subst c. exact IH.
  - assert (H : lstrip_slash (String c s) = String c s).
    { simpl. destruct c as [[] [] [] [] [] [] [] []]; try reflexivity.
      discriminate Ec. }
    simpl in H. rewrite H. simpl. exact Ec.
Qed.

(** X2. The address a client requests does not depend on slashes at the
    junction: one more slash at the end of the base address or at the start
    of the path gives the same run of [sportmonks_get] and of
    [rapidapi_get]; the base as joined never ends with a slash and the path
    as joined never starts with one. *)
Theorem url_join_slashes (cfg : config) (net : transport) (path base : string)
  (ps : option (list (string * value))) (log : list request) :
  sportmonks_get (with_base cfg (SPORTMONKS_BASE cfg ++ "/")) net ("/" ++ path) ps log =
    sportmonks_get cfg net path ps log /\
  rapidapi_get cfg net ("/" ++ path) ps (base ++ "/") log =
    rapidapi_get cfg net path ps base log /\
  ends_with_slash (rstrip_slash base) = false /\
  starts_with_slash (lstrip_slash path) = false.
Proof.
  repeat apply conj.
  - unfold sportmonks_get, with_base. cbn [CRICKET_API_KEY SPORTMONKS_BASE].
    rewrite rstrip_slash_app_slash. reflexivity.
  - unfold rapidapi_get. rewrite rstrip_slash_app_slash. reflexivity.
  - apply rstrip_slash_no_trailing.
  - apply lstrip_slash_no_leading.
Qed.

(** ** Match detail and the number of requests *)

(** X3. When the upstream answers the match-detail request with status 200
    and a body that decodes, [get_match_details] returns the decoded payload
    as it is, whatever its shape, for either provider, and issues that one
    request. *)
Theorem match_detail_passthrough (cfg : config) (net : transport) (match_id : string)
  (log : list request) (r : response) (data : value) :
  status_code r = 200 ->
  json r = inr data ->
  (forall key,
     API_PROVIDER cfg = "sportmonks" ->
     env_set (CRICKET_API_KEY cfg) = Some key ->
     net log (sportmonks_request cfg key ("fixtures/" ++ match_id) match_detail_params)
       = inr r ->
     get_match_details cfg net match_id log =
       (Returns data,
        (log ++ [sportmonks_request cfg key ("fixtures/" ++ match_id)
                   match_detail_params])%list)) /\
  (forall key host,
     API_PROVIDER cfg <> "sportmonks" ->
     env_set (RAPIDAPI_KEY cfg) = Some key ->
     env_set (RAPIDAPI_HOST cfg) = Some host ->
     net log (rapidapi_request key host ("mcenter/v1/" ++ match_id) None
                RAPIDAPI_DEFAULT_BASE) = inr r ->
     get_match_details cfg net match_id log =
       (Returns data,
        (log ++ [rapidapi_request key host ("mcenter/v1/" ++ match_id) None
                   RAPIDAPI_DEFAULT_BASE])%list)).
Proof.
  intros Hs Hj. split.
  - intros key Hp Hk Hn. unfold get_match_details. rewrite try_reraise_or_500.
    rewrite (get_match_details_body_primary cfg net match_id key log Hp Hk).
    cbv zeta. rewrite Hn. unfold fetched. rewrite Hs, Hj. reflexivity.
  - intros key host Hp Hk Hh Hn. unfold get_match_details. rewrite try_reraise_or_500.
    rewrite (get_match_details_body_alternate cfg net match_id key host log Hp Hk Hh).
    cbv zeta. rewrite Hn. unfold fetched. rewrite Hs, Hj. reflexivity.
Qed.

Lemma match_detail_passthrough_witness :
  fst (get_match_details cfg_primary
         (net_const (ok_json (VList [VInt 1; VStr "scoreboard"]))) "41881" []) =
    Returns (VList [VInt 1; VStr "scoreboard"]) /\
  fst (get_match_details cfg_alternate
         (net_const (ok_json (VStr "anything"))) "41881" []) = Returns (VStr "anything").
Proof.
  destruct (match_detail_passthrough cfg_primary
              (net_const (ok_json (VList [VInt 1; VStr "scoreboard"]))) "41881" []
              (ok_json (VList [VInt 1; VStr "scoreboard"]))
              (VList [VInt 1; VStr "scoreboard"]) eq_refl eq_refl) as [H1 _].
  destruct (match_detail_passthrough cfg_alternate
              (net_const (ok_json (VStr "anything"))) "41881" []
              (ok_json (VStr "anything")) (VStr "anything") eq_refl eq_refl) as [_ H2].
  split.
  - rewrite (H1 "secret" eq_refl eq_refl eq_refl). reflexivity.
  - rewrite (H2 "secret" "cricbuzz-cricket.p.rapidapi.com");
      [reflexivity | discriminate | reflexivity | reflexivity | reflexivity].
Defined.

Lemma sportmonks_get_log (cfg : config) (net : transport) path ps log :
  snd (sportmonks_get cfg net path ps log) = log \/
  exists rq, snd (sportmonks_get cfg net path ps log) = (log ++ [rq])%list.
Proof.
  destruct (env_set (CRICKET_API_KEY cfg)) as [key|] eqn:Hk.
  - right. eexists. rewrite (sportmonks_get_configured cfg net key path ps log Hk).
    destruct (net log _); reflexivity.
  - left. unfold sportmonks_get. rewrite Hk. reflexivity.
Qed.

Lemma rapidapi_get_log (cfg : config) (net : transport) path ps base log :
  snd (rapidapi_get cfg net path ps base log) = log \/
  exists rq, snd (rapidapi_get cfg net path ps base log) = (log ++ [rq])%list.
Proof.
  destruct (env_set (RAPIDAPI_KEY cfg)) as [key|] eqn:Hk;
    [destruct (env_set (RAPIDAPI_HOST cfg)) as [host|] eqn:Hh|].
  - right. eexists.
    rewrite (rapidapi_get_configured cfg net key host path ps base log Hk Hh).
    destruct (net log _); reflexivity.
  - left. unfold rapidapi_get. rewrite Hk, Hh. reflexivity.
  - left. unfold rapidapi_get. rewrite Hk. reflexivity.
Qed.

(** X4. One call of the matches list or of the match detail issues at most
    one request, whatever the configuration, the argument and the
    transport's answers: the log is left as it was or grows by one request.
    There is no retry. *)
Theorem at_most_one_request (cfg : config) (net : transport) (arg : string)
  (log : list request) :
  (snd (get_matches cfg net arg log) = log \/
   exists rq, snd (get_matches cfg net arg log) = (log ++ [rq])%list) /\
  (snd (get_match_details cfg net arg log) = log \/
   exists rq, snd (get_match_details cfg net arg log) = (log ++ [rq])%list).
Proof.
  split.
  - unfold get_matches. rewrite try_reraise_or_500. cbn [snd].
    unfold get_matches_body.
    destruct (String.eqb (API_PROVIDER cfg) "sportmonks").
    + unfold bind, lift, ret.
      destruct (subscript sportmonks_endpoints arg) as [endpoint|e]; [|left; reflexivity].
      pose proof (sportmonks_get_log cfg net endpoint
                    (Some [("include", VStr "localteam,visitorteam,venue,season")]) log)
        as Hl.
      destruct (sportmonks_get cfg net endpoint _ log) as [[a|e] l]; [|exact Hl].
      destruct (get_default a "data" (VList [])); [|exact Hl].
      destruct (l0 <- py_iter a0 ;; for_each (to_card arg) l0); exact Hl.
    + unfold bind, lift, ret.
      destruct (subscript rapidapi_paths arg) as [path|e]; [|left; reflexivity].
      pose proof (rapidapi_get_log cfg net path None RAPIDAPI_DEFAULT_BASE log) as Hl.
      destruct (rapidapi_get cfg net path None RAPIDAPI_DEFAULT_BASE log) as [[a|e] l];
        [|exact Hl].
      destruct (rapid_items a); [|exact Hl].
      destruct (l0 <- py_iter a0 ;; for_each (rapid_card arg) l0); exact Hl.
  - unfold get_match_details. rewrite try_reraise_or_500. cbn [snd].
    unfold get_match_details_body.
    destruct (String.eqb (API_PROVIDER cfg) "sportmonks").
    + apply sportmonks_get_log.
    + apply rapidapi_get_log.
Qed.


(** ** What the normalizers can raise *)

Lemma obind_Raises {A B} (c : outcome A) (k : A -> outcome B) (e : exn) :
  obind c k = Raises e -> c = Raises e \/ exists a, c = Returns a /\ k a = Raises e.
Proof.
  destruct c as [a|e']; simpl; intros H; [right; eauto | left; inversion H; reflexivity].
Qed.

Lemma get_raises m k e : get m k = Raises e -> is_http e = false.
Proof. destruct m; simpl; intros H; inversion H; reflexivity. Qed.

Lemma get_default_raises m k v e : get_default m k v = Raises e -> is_http e = false.
Proof. destruct m; simpl; intros H; inversion H; reflexivity. Qed.

Lemma str_upper_raises v e : str_upper v = Raises e -> is_http e = false.
Proof. destruct v; simpl; intros H; inversion H; reflexivity. Qed.

Lemma py_iter_raises v e : py_iter v = Raises e -> is_http e = false.
Proof. destruct v; simpl; intros H; inversion H; reflexivity. Qed.

Lemma index0_raises v e : index0 v = Raises e -> is_http e = false.
Proof.
  destruct v as [| | | |[|c s]|[|a l]|d]; simpl; intros H; inversion H; reflexivity.
Qed.



(** Follow a raised exception down the bindings to the method that raised. *)
Ltac blame H :=
  repeat match type of H with
         | obind _ _ = Raises _ =>
             apply obind_Raises in H; destruct H as [H | (? & _ & H)]
         | (if ?b then _ else _) = Raises _ => destruct b
         end;
  first [ discriminate H
        | exact (get_raises _ _ _ H)
        | exact (get_default_raises _ _ _ _ H)
        | exact (str_upper_raises _ _ H)
        | exact (py_iter_raises _ _ H)
        | exact (index0_raises _ _ H) ].

Lemma to_card_raises type m e : to_card type m = Raises e -> is_http e = false.
Proof. unfold to_card. intros H. blame H. Qed.

Lemma rapid_card_raises type m e : rapid_card type m = Raises e -> is_http e = false.
Proof. unfold rapid_card, sub_get, sub_get_default. intros H. blame H. Qed.

Lemma news_item_raises meta entry e : news_item meta entry = Raises e -> is_http e = false.
Proof. unfold news_item, por. intros H. blame H. Qed.

Lemma tweet_raises t e : tweet t = Raises e -> is_http e = false.
Proof. unfold tweet. intros H. blame H. Qed.



Lemma guarded_unexpected (e : exn) :
  is_http e = false ->
  guarded (Raises e) = Raises (HTTPException 500 (take 200 (exc_str e))).
Proof. destruct e; simpl; intros H; [discriminate H | reflexivity ..]. Qed.

(** ** The answers of the matches list *)






Lemma get_matches_primary_200 (cfg : config) (net : transport) (type endpoint key : string)
  (log : list request) (r : response) (data : value) :
  API_PROVIDER cfg = "sportmonks" ->
  env_set (CRICKET_API_KEY cfg) = Some key ->
  subscript sportmonks_endpoints type = Returns endpoint ->
  net log (sportmonks_request cfg key endpoint (Some include_list)) = inr r ->
  status_code r = 200 ->
  json r = inr data ->
  fst (get_matches cfg net type log) = guarded (primary_matches type data).
Proof.
  intros Hp Hk He Hn Hs Hj.
  unfold get_matches. rewrite try_reraise_or_500.
  rewrite (get_matches_body_primary cfg net type endpoint key log Hp He Hk).
  cbv zeta. rewrite Hn. unfold fetched. rewrite Hs, Hj. reflexivity.
Qed.

Lemma for_each_first_failure {A B} (f : A -> outcome B) (l1 l2 : list A) (a : A)
  (bs : list B) (e : exn) :
  for_each f l1 = Returns bs -> f a = Raises e ->
  for_each f (l1 ++ a :: l2) = Raises e.
Proof.
  revert bs; induction l1 as [|x l1 IH]; simpl; intros bs H Ha.
  - rewrite Ha. reflexivity.
  - apply obind_Returns in H. destruct H as (b & Eb & H).
    apply obind_Returns in H. destruct H as (bs' & Ebs & _).
    rewrite Eb. cbn [obind]. rewrite (IH bs' Ebs Ha). reflexivity.
Qed.

(** X7. The matches list is all or nothing: when the payload's list holds a
    record that the normalizer cannot take, after records it can, the call
    ends in the 500 carrying that record's exception, whatever the records
    that follow; the entries already made are not returned.  For the primary
    provider the list is the payload's [data], for the alternate one its
    [matches]. *)
Theorem matches_all_or_nothing (cfg : config) (net : transport) (type path key : string)
  (log : list request) (r : response) (d : list (string * value))
  (l1 l2 : list value) (m : value) (cs : list value) (e : exn) :
  status_code r = 200 ->
  json r = inr (VDict d) ->
  (API_PROVIDER cfg = "sportmonks" ->
   env_set (CRICKET_API_KEY cfg) = Some key ->
   subscript sportmonks_endpoints type = Returns path ->
   net log (sportmonks_request cfg key path (Some include_list)) = inr r ->
   lookup "data" d = Some (VList (l1 ++ m :: l2)) ->
   for_each (to_card type) l1 = Returns cs ->
   to_card type m = Raises e ->
   fst (get_matches cfg net type log) =
     Raises (HTTPException 500 (take 200 (exc_str e)))) /\
  (forall host,
   API_PROVIDER cfg <> "sportmonks" ->
   env_set (RAPIDAPI_KEY cfg) = Some key ->
   env_set (RAPIDAPI_HOST cfg) = Some host ->
   subscript rapidapi_paths type = Returns path ->
   net log (rapidapi_request key host path None RAPIDAPI_DEFAULT_BASE) = inr r ->
   lookup "matches" d = Some (VList (l1 ++ m :: l2)) ->
   for_each (rapid_card type) l1 = Returns cs ->
   rapid_card type m = Raises e ->
   fst (get_matches cfg net type log) =
     Raises (HTTPException 500 (take 200 (exc_str e)))).
Proof.
  intros Hs Hj. split.
  - intros Hp Hk He Hn Hl H1 Hm.
    rewrite (get_matches_primary_200 cfg net type path key log r (VDict d)
               Hp Hk He Hn Hs Hj).
    unfold primary_matches, get_default. rewrite Hl. cbn [obind py_iter].
    rewrite (for_each_first_failure _ _ _ _ _ _ H1 Hm). cbn [obind].
    apply guarded_unexpected. exact (to_card_raises _ _ _ Hm).
  - intros host Hp Hk Hh He Hn Hl H1 Hm.
    rewrite (get_matches_alternate_200 cfg net type path key host log r (VDict d)
               Hp Hk Hh He Hn Hs Hj).
    unfold alternate_matches, rapid_items, get_default. rewrite Hl. cbn [obind py_iter].
    rewrite (for_each_first_failure _ _ _ _ _ _ H1 Hm). cbn [obind].
    apply guarded_unexpected. exact (rapid_card_raises _ _ _ Hm).
Qed.

Lemma matches_all_or_nothing_witness :
  fst (get_matches cfg_primary
         (net_const (ok_json (VDict [("data",
            VList [VDict [("id", VInt 1)];
                   VDict [("id", VInt 2); ("status", VInt 3)];
                   VDict [("id", VInt 3)]])])))
         "live" []) =
    Raises (HTTPException 500 "'int' object has no attribute 'upper'").
Proof.
  destruct (matches_all_or_nothing cfg_primary
              (net_const (ok_json (VDict [("data",
                 VList [VDict [("id", VInt 1)];
                        VDict [("id", VInt 2); ("status", VInt 3)];
                        VDict [("id", VInt 3)]])])))
              "live" "livescores" "secret" []
              (ok_json (VDict [("data",
                 VList [VDict [("id", VInt 1)];
                        VDict [("id", VInt 2); ("status", VInt 3)];
                        VDict [("id", VInt 3)]])]))
              [("data",
                 VList [VDict [("id", VInt 1)];
                        VDict [("id", VInt 2); ("status", VInt 3)];
                        VDict [("id", VInt 3)]])]
              [VDict [("id", VInt 1)]] [VDict [("id", VInt 3)]]
              (VDict [("id", VInt 2); ("status", VInt 3)])
              (match for_each (to_card "live") [VDict [("id", VInt 1)]] with
               | Returns l => l | Raises _ => [] end)
              (AttributeError "int" "upper") eq_refl eq_refl) as [H _].
  rewrite (H eq_refl eq_refl eq_refl eq_refl eq_refl eq_refl eq_refl). reflexivity.
Defined.


(** ** The shape of the entries *)

(** Close the equations left by [peel] once a sub-object is known. *)
Ltac settle_object Hl t :=
  unfold dget in *; rewrite Hl in *; destruct t; cbn in *;
  repeat match goal with
         | E : Returns _ = Returns _ |- _ => inversion E; clear E; subst
         end;
  reflexivity.

Lemma to_card_shape type d c :
  to_card type (VDict d) = Returns c ->
  keys c = ["id"; "status"; "note"; "runs"; "league_id"; "localteam"; "visitorteam";
            "venue"; "starting_at"] /\
  field c "id" = Some (dget d "id") /\
  field c "note" = Some (dget d "note") /\
  field c "runs" = Some (dget d "runs") /\
  field c "league_id" = Some (dget d "season_id") /\
  field c "starting_at" = Some (dget d "starting_at") /\
  (forall t, lookup "localteam" d = Some (VDict t) ->
     field c "localteam" =
       Some (VDict [("id", dget t "id"); ("name", dget t "name"); ("code", dget t "code")])) /\
  (forall t, lookup "visitorteam" d = Some (VDict t) ->
     field c "visitorteam" =
       Some (VDict [("id", dget t "id"); ("name", dget t "name"); ("code", dget t "code")])) /\
  (forall t, lookup "venue" d = Some (VDict t) ->
     field c "venue" = Some (VDict [("name", dget t "name"); ("city", dget t "city")])).
Proof.
  intros H. unfold to_card in H. rewrite !get_dict in H. cbn [obind] in H.
  peel H. inversion H; subst c; clear H.
  unfold field, keys. cbn [lookup String.eqb Ascii.eqb Bool.eqb map fst].
  repeat apply conj; try reflexivity; intros t Hl; settle_object Hl t.
Qed.

Lemma rapid_card_shape type d c :
  rapid_card type (VDict d) = Returns c ->
  keys c = ["id"; "status"; "note"; "localteam"; "visitorteam"; "venue"; "starting_at"] /\
  field c "id" = Some (if truthy (dget d "matchId") then dget d "matchId" else dget d "id") /\
  field c "note" = Some (dget d "seriesName") /\
  field c "starting_at" = Some (dget d "startTime") /\
  field c "runs" = None /\
  field c "league_id" = None /\
  (forall t, lookup "team1" d = Some (VDict t) ->
     field c "localteam" =
       Some (VDict [("name", dget t "teamName"); ("code", dget t "teamSName")])) /\
  (forall t, lookup "team2" d = Some (VDict t) ->
     field c "visitorteam" =
       Some (VDict [("name", dget t "teamName"); ("code", dget t "teamSName")])) /\
  (forall t, lookup "venueInfo" d = Some (VDict t) ->
     field c "venue" = Some (VDict [("name", dget t "ground"); ("city", dget t "city")])).
Proof.
  intros H. unfold rapid_card, sub_get, sub_get_default in H.
  unfold get_default in H. rewrite !get_dict in H. cbn [obind] in H.
  apply obind_Returns in H. destruct H as (id & Eid & H).
  assert (Hid : id = if truthy (dget d "matchId") then dget d "matchId" else dget d "id").
  { destruct (truthy (dget d "matchId")); inversion Eid; reflexivity. }
  clear Eid. subst id.
  peel H. inversion H; subst c; clear H.
  unfold field, keys. cbn [lookup String.eqb Ascii.eqb Bool.eqb map fst].
  repeat apply conj; try reflexivity; intros t Hl; settle_object Hl t.
Qed.

(** X9. The fields of an entry.  A primary-provider entry has the nine keys
    id, status, note, runs, league_id, localteam, visitorteam, venue,
    starting_at; id, note, runs and starting_at are the record's, league_id
    is its [season_id], and a team or venue object gives its id, name, code
    (name, city), null where it has none.  An alternate-provider entry has
    seven keys, without runs and league_id, and its team references have no
    id: id is the record's [matchId], or its [id] when that is absent or
    falsy, note its [seriesName], starting_at its [startTime], the teams the
    [teamName] and [teamSName] of [team1] and [team2], the venue the
    [ground] and [city] of [venueInfo]. *)
Theorem entry_fields (type : string) (d : list (string * value)) (c : value) :
  (to_card type (VDict d) = Returns c ->
   keys c = ["id"; "status"; "note"; "runs"; "league_id"; "localteam"; "visitorteam";
             "venue"; "starting_at"] /\
   field c "id" = Some (dget d "id") /\
   field c "note" = Some (dget d "note") /\
   field c "runs" = Some (dget d "runs") /\
   field c "league_id" = Some (dget d "season_id") /\
   field c "starting_at" = Some (dget d "starting_at") /\
   (forall t, lookup "localteam" d = Some (VDict t) ->
      field c "localteam" =
        Some (VDict [("id", dget t "id"); ("name", dget t "name");
                     ("code", dget t "code")])) /\
   (forall t, lookup "visitorteam" d = Some (VDict t) ->
      field c "visitorteam" =
        Some (VDict [("id", dget t "id"); ("name", dget t "name");
                     ("code", dget t "code")])) /\
   (forall t, lookup "venue" d = Some (VDict t) ->
      field c "venue" = Some (VDict [("name", dget t "name"); ("city", dget t "city")]))) /\
  (rapid_card type (VDict d) = Returns c ->
   keys c = ["id"; "status"; "note"; "localteam"; "visitorteam"; "venue"; "starting_at"] /\
   field c "id" =
     Some (if truthy (dget d "matchId") then dget d "matchId" else dget d "id") /\
   field c "note" = Some (dget d "seriesName") /\
   field c "starting_at" = Some (dget d "startTime") /\
   field c "runs" = None /\
   field c "league_id" = None /\
   (forall t, lookup "team1" d = Some (VDict t) ->
      field c "localteam" =
        Some (VDict [("name", dget t "teamName"); ("code", dget t "teamSName")])) /\
   (forall t, lookup "team2" d = Some (VDict t) ->
      field c "visitorteam" =
        Some (VDict [("name", dget t "teamName"); ("code", dget t "teamSName")])) /\
   (forall t, lookup "venueInfo" d = Some (VDict t) ->
      field c "venue" =
        Some (VDict [("name", dget t "ground"); ("city", dget t "city")]))).
Proof.
  split; [apply to_card_shape | apply rapid_card_shape].
Qed.

Lemma entry_fields_witness :
  exists c,
    rapid_card "live"
      (VDict [("matchId", VInt 0); ("id", VInt 12); ("seriesName", VStr "Ashes");
              ("venueInfo", VDict [("ground", VStr "Lord's")])]) = Returns c /\
    field c "id" = Some (VInt 12) /\
    field c "venue" = Some (VDict [("name", VStr "Lord's"); ("city", VNone)]) /\
    field c "runs" = None.
Proof.
  eexists. split; [reflexivity|].
  destruct (entry_fields "live"
              [("matchId", VInt 0); ("id", VInt 12); ("seriesName", VStr "Ashes");
               ("venueInfo", VDict [("ground", VStr "Lord's")])]
              (VDict [("id", VInt 12); ("status", VStr "LIVE"); ("note", VStr "Ashes");
                      ("localteam", VDict [("name", VNone); ("code", VNone)]);
                      ("visitorteam", VDict [("name", VNone); ("code", VNone)]);
                      ("venue", VDict [("name", VStr "Lord's"); ("city", VNone)]);
                      ("starting_at", VNone)]))
    as [_ H].
  destruct (H eq_refl) as (_ & Hid & _ & _ & Hruns & _ & _ & _ & Hv).
  split; [exact Hid|]. split; [|exact Hruns].
  exact (Hv [("ground", VStr "Lord's")] eq_refl).
Defined.

(** ** Tweet search with a token *)

Lemma get_tweets_configured (cfg : config) (net : transport) (token query : string)
  (log : list request) :
  env_set (X_BEARER_TOKEN cfg) = Some token ->
  get_tweets cfg net query log =
    (match net log (tweets_request token query) with
     | inl msg => Raises (RequestException msg)
     | inr r =>
         if status_code r =? 200
         then match json r with
              | inl msg => Raises (JSONDecodeError msg)
              | inr data => tweets_of data
              end
         else Raises (HTTPException (status_code r) (text r))
     end, (log ++ [tweets_request token query])%list).
Proof.
  intros Ht. unfold get_tweets. rewrite Ht. unfold bind at 1. unfold requests_get.
  fold (tweets_request token query).
  destruct (net log (tweets_request token query)) as [msg|r]; [reflexivity|].
  destruct (status_code r =? 200); [|reflexivity].
  unfold bind at 1. unfold r_json. destruct (json r) as [msg|data]; [reflexivity|].
  unfold ret at 1. unfold bind, lift, ret, tweets_of.
  destruct (d <- get_default data "data" (VList []) ;; l <- py_iter d ;; for_each tweet l)
    as [ts|e] eqn:E.
  - destruct (get_default data "data" (VList [])) as [d|e]; [|discriminate E].
    cbn [obind] in *. destruct (py_iter d) as [l|e]; [|discriminate E].
    cbn [obind] in *. rewrite E. reflexivity.
  - destruct (get_default data "data" (VList [])) as [d|e']; cbn [obind] in *;
      [|inversion E; reflexivity].
    destruct (py_iter d) as [l|e']; cbn [obind] in *; [|inversion E; reflexivity].
    rewrite E. reflexivity.
Qed.

(** X10. With a token set, [get_tweets] issues one request, and its
    failures are not all classified: an answer with a status other than 200
    is raised as an [HTTPException] with that status and body, but a
    network-level failure and a body that does not decode leave the handler
    as the exception they are (no [HTTPException], no truncated detail), so
    the client receives the framework's plain 500. *)
Theorem tweets_failures (cfg : config) (net : transport) (token query : string)
  (log : list request) :
  env_set (X_BEARER_TOKEN cfg) = Some token ->
  snd (get_tweets cfg net query log) = (log ++ [tweets_request token query])%list /\
  (forall r, net log (tweets_request token query) = inr r -> status_code r <> 200 ->
     fst (get_tweets cfg net query log) =
       Raises (HTTPException (status_code r) (text r))) /\
  (forall msg, net log (tweets_request token query) = inl msg ->
     fst (get_tweets cfg net query log) = Raises (RequestException msg) /\
     respond (fst (get_tweets cfg net query log)) =
       mkHttp 500 (VStr "Internal Server Error")) /\
  (forall r msg, net log (tweets_request token query) = inr r ->
     status_code r = 200 -> json r = inl msg ->
     fst (get_tweets cfg net query log) = Raises (JSONDecodeError msg) /\
     respond (fst (get_tweets cfg net query log)) =
       mkHttp 500 (VStr "Internal Server Error")).
Proof.
  intros Ht. rewrite (get_tweets_configured cfg net token query log Ht). cbn [fst snd].
  repeat apply conj.
  - reflexivity.
  - intros r Hn Hs. rewrite Hn. apply Z.eqb_neq in Hs. rewrite Hs. reflexivity.
  - intros msg Hn. rewrite Hn. split; reflexivity.
  - intros r msg Hn Hs Hj. rewrite Hn, Hs, Hj. split; reflexivity.
Qed.

Lemma tweets_failures_witness :
  get_tweets cfg_social (net_down "Max retries exceeded") "root66" [] =
    (Raises (RequestException "Max retries exceeded"), [tweets_request "AAAA" "root66"]) /\
  fst (get_tweets cfg_social (net_const (mkResponse 429 "Too Many Requests" (inl "")))
         "root66" []) = Raises (HTTPException 429 "Too Many Requests").
Proof.
  destruct (tweets_failures cfg_social (net_down "Max retries exceeded") "AAAA" "root66" []
              eq_refl) as (Hlog & _ & Hnet & _).
  destruct (tweets_failures cfg_social
              (net_const (mkResponse 429 "Too Many Requests" (inl ""))) "AAAA" "root66" []
              eq_refl) as (_ & Hup & _).
  split.
  - destruct (Hnet "Max retries exceeded" eq_refl) as [E _].
    rewrite (surjective_pairing (get_tweets _ _ _ _)), E, Hlog. reflexivity.
  - apply (Hup (mkResponse 429 "Too Many Requests" (inl "")) eq_refl). discriminate.
Defined.

Lemma for_each_tweet (ts : list value) :
  Forall (fun t => is_dict t = true) ts ->
  exists cs, for_each tweet ts = Returns cs /\ Forall2 tweet_of ts cs.
Proof.
  induction 1 as [|t ts Ht _ (cs & E & F)]; simpl.
  - exists []. split; [reflexivity | constructor].
  - destruct t as [| | | | | |td]; try discriminate Ht.
    cbn [tweet get get_default obind]. rewrite E. cbn [obind].
    eexists. split; [reflexivity|]. constructor; [|exact F].
    exists td. split; reflexivity.
Qed.

(** X11. With a token set and a 200 answer whose body decodes to an object:
    without a [data] field the handler returns the empty list of tweets (and
    no note); with a [data] list of objects it returns one tweet per record,
    in order, made of the record's id, text and created_at, null where
    absent, and of its [public_metrics], the empty object when absent. *)
Theorem tweets_mapped (cfg : config) (net : transport) (token query : string)
  (log : list request) (r : response) (d : list (string * value)) :
  env_set (X_BEARER_TOKEN cfg) = Some token ->
  net log (tweets_request token query) = inr r ->
  status_code r = 200 ->
  json r = inr (VDict d) ->
  (lookup "data" d = None ->
     fst (get_tweets cfg net query log) = Returns (VDict [("tweets", VList [])])) /\
  (forall ts, lookup "data" d = Some (VList ts) ->
     Forall (fun t => is_dict t = true) ts ->
     exists cs,
       fst (get_tweets cfg net query log) = Returns (VDict [("tweets", VList cs)]) /\
       Forall2 tweet_of ts cs /\ length cs = length ts).
Proof.
  intros Ht Hn Hs Hj. rewrite (get_tweets_configured cfg net token query log Ht).
  cbn [fst]. rewrite Hn, Hs, Hj. cbn [Z.eqb Pos.eqb]. unfold tweets_of, get_default.
  split.
  - intros Hl. rewrite Hl. reflexivity.
  - intros ts Hl Hd. rewrite Hl. cbn [obind py_iter].
    destruct (for_each_tweet ts Hd) as (cs & E & F).
    exists cs. rewrite E. cbn [obind].
    split; [reflexivity|]. split; [exact F|].
    symmetry. exact (Forall2_length F).
Qed.

Lemma tweets_mapped_witness :
  fst (get_tweets cfg_social
         (net_const (ok_json (VDict [("data",
            VList [VDict [("id", VStr "1"); ("text", VStr "Century!")]])])))
         "imVkohli" []) =
    Returns (VDict [("tweets",
       VList [VDict [("id", VStr "1"); ("text", VStr "Century!");
                     ("created_at", VNone); ("metrics", VDict [])]])]).
Proof.
  destruct (tweets_mapped cfg_social
              (net_const (ok_json (VDict [("data",
                 VList [VDict [("id", VStr "1"); ("text", VStr "Century!")]])])))
              "AAAA" "imVkohli" []
              (ok_json (VDict [("data",
                 VList [VDict [("id", VStr "1"); ("text", VStr "Century!")]])]))
              [("data", VList [VDict [("id", VStr "1"); ("text", VStr "Century!")]])]
              eq_refl eq_refl eq_refl eq_refl) as [_ H].
  destruct (H [VDict [("id", VStr "1"); ("text", VStr "Century!")]] eq_refl)
    as (cs & E & F & _).
  - repeat constructor.
  - rewrite E. inversion F as [|t c ts' cs' (td & Et & Ec) F' Hts Hcs]; subst.
    inversion F'; subst. inversion Et; subst td. reflexivity.
Defined.

(** ** News items *)

(** X12. The fields of a news item, for an entry and a feed header that are
    objects: title and link are the entry's, null when absent; summary is
    the entry's, the empty string when absent; published is the entry's, and
    the entry's [updated] when the entry has no [published] key; source is
    the feed's title, and RSS when the feed has none.  The item has the six
    keys title, link, summary, published, source, image. *)
Theorem news_item_fields (meta e : list (string * value)) (it : value) :
  news_item (VDict meta) (VDict e) = Returns it ->
  keys it = ["title"; "link"; "summary"; "published"; "source"; "image"] /\
  field it "title" = Some (dget e "title") /\
  field it "link" = Some (dget e "link") /\
  field it "summary" =
    Some (match lookup "summary" e with Some v => v | None => VStr "" end) /\
  field it "published" =
    Some (match lookup "published" e with Some v => v | None => dget e "updated" end) /\
  field it "source" =
    Some (match lookup "title" meta with Some v => v | None => VStr "RSS" end).
Proof.
  intros H. unfold news_item in H. unfold get_default in H.
  rewrite !get_dict in H. cbn [obind] in H.
  peel H. inversion H; subst it; clear H.
  unfold field, keys. cbn [lookup String.eqb Ascii.eqb Bool.eqb map fst].
  repeat apply conj; reflexivity.
Qed.

Lemma news_item_fields_witness :
  exists it,
    news_item (VDict []) (VDict [("title", VStr "Toss"); ("updated", VStr "10:00");
                                 ("published", VNone)]) = Returns it /\
    field it "published" = Some VNone /\
    field it "source" = Some (VStr "RSS") /\
    field it "summary" = Some (VStr "").
Proof.
  eexists. split; [reflexivity|].
  destruct (news_item_fields []
              [("title", VStr "Toss"); ("updated", VStr "10:00"); ("published", VNone)]
              (VDict [("title", VStr "Toss"); ("link", VNone); ("summary", VStr "");
                      ("published", VNone); ("source", VStr "RSS"); ("image", VNone)])
              eq_refl) as (_ & _ & _ & Hs & Hp & Hsrc).
  split; [exact Hp|]. split; [exact Hsrc | exact Hs].
Defined.

(** X13. The image of a news item, for an entry and a feed header that are
    objects: the [url] of the first [media_thumbnail] when the entry has a
    non-empty list of them; otherwise the [url] of the first
    [media_content]; and null, without failing, when the entry has neither
    (absent, null or empty). *)
Theorem news_item_image (meta e : list (string * value)) :
  (forall t rest,
     lookup "media_thumbnail" e = Some (VList (VDict t :: rest)) ->
     exists it, news_item (VDict meta) (VDict e) = Returns it /\
                field it "image" = Some (dget t "url")) /\
  (forall t rest,
     truthy (dget e "media_thumbnail") = false ->
     lookup "media_content" e = Some (VList (VDict t :: rest)) ->
     exists it, news_item (VDict meta) (VDict e) = Returns it /\
                field it "image" = Some (dget t "url")) /\
  (truthy (dget e "media_thumbnail") = false ->
   truthy (dget e "media_content") = false ->
   exists it, news_item (VDict meta) (VDict e) = Returns it /\
              field it "image" = Some VNone).
Proof.
  repeat apply conj.
  - intros t rest Hl. unfold news_item, get_default. rewrite !get_dict. cbn [obind].
    assert (Ht : dget e "media_thumbnail" = VList (VDict t :: rest))
      by (unfold dget; rewrite Hl; reflexivity).
    rewrite Ht. cbn [truthy length Nat.eqb negb index0 obind].
    rewrite get_dict. cbn [obind]. eexists. split; reflexivity.
  - intros t rest Hf Hl. unfold news_item, get_default. rewrite !get_dict. cbn [obind].
    rewrite Hf. cbn [obind]. unfold por.
    assert (Hc : dget e "media_content" = VList (VDict t :: rest))
      by (unfold dget; rewrite Hl; reflexivity).
    rewrite Hc. cbn [truthy length Nat.eqb negb index0 obind].
    rewrite get_dict. cbn [obind]. eexists. split; reflexivity.
  - intros Hf Hc. unfold news_item, get_default. rewrite !get_dict. cbn [obind].
    rewrite Hf. cbn [obind]. unfold por. rewrite Hc.
    cbn [index0 obind empty_dict get lookup]. eexists. split; reflexivity.
Qed.

Lemma news_item_image_witness :
  exists it,
    news_item (VDict [("title", VStr "ICC")])
      (VDict [("media_thumbnail", VList []);
              ("media_content", VList [VDict [("url", VStr "https://example.org/a.jpg")]])])
      = Returns it /\
    field it "image" = Some (VStr "https://example.org/a.jpg").
Proof.
  destruct (news_item_image [("title", VStr "ICC")]
              [("media_thumbnail", VList []);
               ("media_content", VList [VDict [("url", VStr "https://example.org/a.jpg")]])])
    as (_ & H & _).
  exact (H [("url", VStr "https://example.org/a.jpg")] [] eq_refl eq_refl).
Defined.

Lemma flat_map_filter_parses (parse : feedparser) (sources : list string) :
  flat_map (feed_items parse) (filter (parses parse) sources) =
    flat_map (feed_items parse) sources.
Proof.
  induction sources as [|src rest IH]; [reflexivity|].
  cbn [filter flat_map]. unfold parses at 1.
  destruct (parse src) as [msg|f] eqn:E.
  - assert (Hnil : feed_items parse src = [])
      by (unfold feed_items; rewrite E; reflexivity).
    rewrite Hnil. exact IH.
  - cbn [flat_map]. rewrite IH. reflexivity.
Qed.

(** X14. A source whose parse raises is as if it were not listed: the news
    handler returns what it returns for the sources that parse.  When every
    source fails it returns the empty list of items. *)
Theorem news_failing_sources (parse : feedparser) (sources : list string) :
  get_news_from parse sources = get_news_from parse (filter (parses parse) sources) /\
  ((forall src, In src sources -> parses parse src = false) ->
   get_news_from parse sources = VDict [("items", VList [])]).
Proof.
  assert (E : get_news_from parse sources =
              get_news_from parse (filter (parses parse) sources)).
  { unfold get_news_from. rewrite !news_loop_items. cbn [app].
    rewrite flat_map_filter_parses. reflexivity. }
  split; [exact E|].
  intros Hall. rewrite E.
  assert (Hnil : filter (parses parse) sources = []).
  { clear E. induction sources as [|src rest IH]; [reflexivity|].
    cbn [filter]. rewrite (Hall src (or_introl eq_refl)). apply IH.
    intros s Hs. apply Hall. right. exact Hs. }
  rewrite Hnil. reflexivity.
Qed.

Lemma news_failing_sources_witness :
  get_news_from (fun _ => inl "bozo") NEWS_SOURCES = VDict [("items", VList [])].
Proof.
  apply (news_failing_sources (fun _ => inl "bozo") NEWS_SOURCES).
  intros src _. reflexivity.
Defined.

Lemma items_until_error_cut meta es1 es2 bad its e :
  for_each (news_item meta) es1 = Returns its ->
  news_item meta bad = Raises e ->
  items_until_error meta (es1 ++ bad :: es2) = its.
Proof.
  revert its; induction es1 as [|x es1 IH]; simpl; intros its H Hb.
  - rewrite Hb. now inversion H.
  - apply obind_Returns in H. destruct H as (b & Eb & H).
    apply obind_Returns in H. destruct H as (bs & Ebs & H).
    inversion H; subst its. rewrite Eb. f_equal. now apply IH.
Qed.

(** X15. An entry that cannot be normalized cuts its feed, not its
    predecessors: when, among the first 20 entries of a feed, the entries
    before one that raises all normalize, the feed contributes exactly their
    items, the entries after it are dropped, and the loop goes on with the
    next source, the items collected so far being kept. *)
Theorem feed_cut_at_failure (parse : feedparser) (src : string) (rest : list string)
  (f : feed) (es1 es2 : list value) (bad : value) (its items : list value) (e : exn) :
  parse src = inr f ->
  firstn 20 (entries f) = (es1 ++ bad :: es2)%list ->
  for_each (news_item (feed_meta f)) es1 = Returns its ->
  news_item (feed_meta f) bad = Raises e ->
  feed_items parse src = its /\
  news_loop parse (src :: rest) items = news_loop parse rest (items ++ its)%list.
Proof.
  intros Hp Hes H1 Hb. split.
  - unfold feed_items. rewrite Hp, Hes. now apply (items_until_error_cut _ _ _ _ _ e).
  - cbn [news_loop]. rewrite Hp, append_entries_items, Hes.
    now rewrite (items_until_error_cut _ _ _ _ _ e H1 Hb).
Qed.

Lemma feed_cut_at_failure_witness :
  feed_items
    (fun _ => inr (mkFeed (VDict [])
                     [story 0; VDict [("media_thumbnail", VInt 3)]; story 2]))
    "x" =
  match news_item (VDict []) (story 0) with Returns it => [it] | Raises _ => [] end.
Proof.
  apply (feed_cut_at_failure
           (fun _ => inr (mkFeed (VDict [])
                            [story 0; VDict [("media_thumbnail", VInt 3)]; story 2]))
           "x" []
           (mkFeed (VDict []) [story 0; VDict [("media_thumbnail", VInt 3)]; story 2])
           [story 0] [story 2] (VDict [("media_thumbnail", VInt 3)])
           (match news_item (VDict []) (story 0) with Returns it => [it] | Raises _ => [] end)
           [] (TypeError "'int' object is not subscriptable")
           eq_refl eq_refl eq_refl eq_refl).
Defined.

(** ** The requests of the rankings handler *)

Lemma setitem_keys k v d : In k (map fst d) -> map fst (setitem k v d) = map fst d.
Proof.
  induction d as [|[k' v'] d IH]; simpl; intros H; [contradiction|].
  destruct (String.eqb k k') eqn:E; simpl.
  - apply String.eqb_eq in E. now subst k'.
  - f_equal. apply IH. destruct H as [H|H]; [|exact H].
    subst k'. now rewrite String.eqb_refl in E.
Qed.

Lemma rankings_step_log (net : transport) (format cat : string)
  (players : list (string * value)) (log : list request) :
  In cat (map fst players) ->
  exists o,
    rankings_step net format players cat log =
      (o, (log ++ [rankings_request format cat])%list) /\
    match o with
    | Returns players' => map fst players' = map fst players
    | Raises e => is_http e = false
    end.
Proof.
  intros Hin. unfold rankings_step, bind, requests_get.
  fold (rankings_request format cat).
  destruct (net log (rankings_request format cat)) as [msg|r].
  - eexists. split; reflexivity.
  - destruct (status_code r =? 200).
    + unfold r_json. destruct (json r) as [msg|v].
      * eexists. split; reflexivity.
      * eexists. split; [reflexivity|]. now apply setitem_keys.
    + eexists. split; reflexivity.
Qed.

Lemma rankings_loop_log (net : transport) (format : string) (cats : list string) :
  forall (players : list (string * value)) (log : list request),
    (forall cat, In cat cats -> In cat (map fst players)) ->
    exists n o,
      (n <= length cats)%nat /\
      rankings_loop net format cats players log =
        (o, (log ++ firstn n (map (rankings_request format) cats))%list) /\
      match o with
      | Returns players' => n = length cats /\ map fst players' = map fst players
      | Raises e => is_http e = false
      end.
Proof.
  induction cats as [|cat rest IH]; intros players log Hin.
  - exists 0%nat, (Returns players). cbn. rewrite app_nil_r. auto.
  - destruct (rankings_step_log net format cat players log (Hin cat (or_introl eq_refl)))
      as (o1 & E1 & H1).
    cbn [rankings_loop]. unfold bind. rewrite E1.
    destruct o1 as [players'|e].
    + destruct (IH players' (log ++ [rankings_request format cat])%list)
        as (n & o & Hn & E & H).
      { intros c Hc. rewrite H1. apply Hin. right. exact Hc. }
      exists (S n), o. split; [cbn; lia|]. split.
      * rewrite E. cbn [map firstn]. rewrite <- app_assoc. reflexivity.
      * destruct o as [p|e]; [|exact H]. destruct H as [-> H].
        split; [reflexivity | congruence].
    + exists 1%nat, (Raises e). split; [cbn; lia|]. split; [|exact H1].
      cbn [map firstn]. reflexivity.
Qed.

Lemma get_rankings_body_log (net : transport) (format : string) (log : list request) :
  exists n o,
    (1 <= n <= 4)%nat /\
    get_rankings_body net format log =
      (o, (log ++ firstn n (rankings_requests format))%list) /\
    match o with
    | Returns resp =>
        n = 4%nat /\
        keys resp = ["format"; "teams"; "players"] /\
        field resp "format" = Some (VStr format) /\
        exists players, field resp "players" = Some (VDict players) /\
                        map fst players = ["batting"; "bowling"; "allrounder"]
    | Raises _ => True
    end.
Proof.
  unfold get_rankings_body.
  unfold bind at 1. unfold requests_get at 1.
  change (mkRequest (rankings_url format "teams") [] [] 15)
    with (rankings_request format "teams").
  set (q0 := rankings_request format "teams").
  destruct (net log q0) as [msg|r0].
  - exists 1%nat. eexists. split; [lia|]. split; [reflexivity | exact I].
  - unfold bind at 1.
    assert (Ht : exists o,
              (if status_code r0 =? 200 then r_json r0 else ret (VList []))
                (log ++ [q0])%list = (o, (log ++ [q0])%list)).
    { destruct (status_code r0 =? 200); [|eexists; reflexivity].
      unfold r_json. destruct (json r0); eexists; reflexivity. }
    destruct Ht as (o & Ht). rewrite Ht. destruct o as [teams|e].
    + destruct (rankings_loop_log net format (map fst players_init) players_init
                  (log ++ [q0])%list (fun c H => H)) as (n & o & Hn & E & H).
      unfold bind at 1. rewrite E. exists (S n).
      destruct o as [players|e]; cbn [ret raise].
      * eexists. split; [cbn in Hn; lia|]. split.
        -- rewrite <- app_assoc. reflexivity.
        -- destruct H as [-> Hk]. split; [reflexivity|].
           split; [reflexivity|]. split; [reflexivity|].
           exists players. split; [reflexivity | exact Hk].
      * exists (Raises e). split; [cbn in Hn; lia|].
        split; [rewrite <- app_assoc; reflexivity | exact I].
    + exists 1%nat. eexists. split; [lia|]. split; [reflexivity | exact I].
Qed.

(** X16. Whatever the transport answers, the rankings handler issues
    between one and four requests, a leading part of teams, batting,
    bowling, allrounder in that order, and all four when it returns.  What
    it returns has the keys format, teams, players, the players being
    exactly batting, bowling and allrounder in that order; what it raises is
    always the [HTTPException] 500 with at most 200 characters of detail. *)
Theorem rankings_answers (net : transport) (format : string) (log : list request) :
  exists n,
    (1 <= n <= 4)%nat /\
    snd (get_rankings net format log) =
      (log ++ firstn n (rankings_requests format))%list /\
    match fst (get_rankings net format log) with
    | Returns resp =>
        n = 4%nat /\
        keys resp = ["format"; "teams"; "players"] /\
        field resp "format" = Some (VStr format) /\
        exists players, field resp "players" = Some (VDict players) /\
                        map fst players = ["batting"; "bowling"; "allrounder"]
    | Raises e =>
        exists d, e = HTTPException 500 d /\ (String.length d <= 200)%nat
    end.
Proof.
  destruct (get_rankings_body_log net format log) as (n & o & Hn & E & H).
  exists n. split; [exact Hn|].
  unfold get_rankings, try_except. rewrite E.
  destruct o as [resp|e]; cbn [fst snd raise].
  - split; [reflexivity | exact H].
  - split; [reflexivity|]. eexists. split; [reflexivity|].
    rewrite take_length. apply Nat.le_min_l.
Qed.

(** ** The health probe *)

(** X17. The health probe reports the external API as configured exactly
    when [CRICKET_API_KEY] or [RAPIDAPI_KEY] is set, whichever provider is
    active and without looking at [RAPIDAPI_HOST].  So it reports
    configured while the active provider's client answers 501: with
    SportMonks active and only the RapidAPI key set, and with RapidAPI active
    and its key set but not its host. *)
Theorem health_probe_ignores_provider (cfg : config) (now : Z) :
  (field (test_database cfg now) "external_api" = Some (VStr "✅ Configured") <->
   env_set (CRICKET_API_KEY cfg) <> None \/ env_set (RAPIDAPI_KEY cfg) <> None) /\
  (forall net path ps log,
     env_set (CRICKET_API_KEY cfg) = None -> env_set (RAPIDAPI_KEY cfg) <> None ->
     field (test_database cfg now) "external_api" = Some (VStr "✅ Configured") /\
     fst (sportmonks_get cfg net path ps log) =
       Raises (HTTPException 501 "CRICKET_API_KEY not set for SportMonks")) /\
  (forall net path ps base log,
     env_set (RAPIDAPI_KEY cfg) <> None -> env_set (RAPIDAPI_HOST cfg) = None ->
     field (test_database cfg now) "external_api" = Some (VStr "✅ Configured") /\
     fst (rapidapi_get cfg net path ps base log) =
       Raises (HTTPException 501 "RAPIDAPI_KEY or RAPIDAPI_HOST not configured")).
Proof.
  assert (Hiff :
    field (test_database cfg now) "external_api" = Some (VStr "✅ Configured") <->
    env_set (CRICKET_API_KEY cfg) <> None \/ env_set (RAPIDAPI_KEY cfg) <> None).
  { unfold test_database, field, getenv_or.
    cbn [lookup String.eqb Ascii.eqb Bool.eqb].
    destruct (env_set (CRICKET_API_KEY cfg)) as [k|] eqn:Ek.
    - rewrite Ek. split; [intros _; left; discriminate | reflexivity].
    - destruct (env_set (RAPIDAPI_KEY cfg)) as [k|] eqn:Er.
      + split; [intros _; right; discriminate | reflexivity].
      + split; [discriminate | intros [H|H]; congruence]. }
  split; [exact Hiff|]. split.
  - intros net path ps log Hk Hr. split; [apply Hiff; right; exact Hr|].
    unfold sportmonks_get. rewrite Hk. reflexivity.
  - intros net path ps base log Hr Hh. split; [apply Hiff; right; exact Hr|].
    unfold rapidapi_get. rewrite Hh.
    destruct (env_set (RAPIDAPI_KEY cfg)); reflexivity.
Qed.

Lemma health_probe_ignores_provider_witness :
  field (test_database cfg_half 1793786400) "external_api" = Some (VStr "✅ Configured") /\
  fst (get_matches cfg_half (net_const (ok_json VNone)) "live" []) =
    Raises (HTTPException 501 "RAPIDAPI_KEY or RAPIDAPI_HOST not configured").
Proof.
  destruct (health_probe_ignores_provider cfg_half 1793786400) as (_ & _ & H).
  destruct (H (net_const (ok_json VNone)) "matches/v1/live" None RAPIDAPI_DEFAULT_BASE [])
    as [Hp Hf]; [discriminate | reflexivity |].
  split; [exact Hp | reflexivity].
Defined.

(** ** Endpoints without a credential *)

(** X18. With the credential of the active provider unset, the matches list
    (for a supported type) and the match detail raise the 501 of the
    provider's client and issue no request: [CRICKET_API_KEY] for SportMonks,
    [RAPIDAPI_KEY] or [RAPIDAPI_HOST] for any other provider name. *)
Theorem unconfigured_endpoints_501 (cfg : config) (net : transport) (log : list request)
  (type path match_id : string) :
  (API_PROVIDER cfg = "sportmonks" -> env_set (CRICKET_API_KEY cfg) = None ->
   subscript sportmonks_endpoints type = Returns path ->
   get_matches cfg net type log =
     (Raises (HTTPException 501 "CRICKET_API_KEY not set for SportMonks"), log) /\
   get_match_details cfg net match_id log =
     (Raises (HTTPException 501 "CRICKET_API_KEY not set for SportMonks"), log)) /\
  (API_PROVIDER cfg <> "sportmonks" ->
   env_set (RAPIDAPI_KEY cfg) = None \/ env_set (RAPIDAPI_HOST cfg) = None ->
   subscript rapidapi_paths type = Returns path ->
   get_matches cfg net type log =
     (Raises (HTTPException 501 "RAPIDAPI_KEY or RAPIDAPI_HOST not configured"), log) /\
   get_match_details cfg net match_id log =
     (Raises (HTTPException 501 "RAPIDAPI_KEY or RAPIDAPI_HOST not configured"), log)).
Proof.
  destruct (endpoints_unconfigured_501 cfg net log) as [Hp Ha].
  split.
  - intros H1 H2 H3. exact (Hp H1 H2 type path match_id H3).
  - intros H1 H2 H3. exact (Ha H1 H2 type path match_id H3).
Qed.

Lemma unconfigured_endpoints_501_witness :
  get_matches cfg_unset (net_const (ok_json VNone)) "upcoming" [] =
    (Raises (HTTPException 501 "CRICKET_API_KEY not set for SportMonks"), []) /\
  get_match_details cfg_half (net_const (ok_json VNone)) "41881" [] =
    (Raises (HTTPException 501 "RAPIDAPI_KEY or RAPIDAPI_HOST not configured"), []).
Proof.
  destruct (unconfigured_endpoints_501 cfg_unset (net_const (ok_json VNone)) []
              "upcoming" "fixtures" "41881") as [H1 _].
  destruct (unconfigured_endpoints_501 cfg_half (net_const (ok_json VNone)) []
              "live" "matches/v1/live" "41881") as [_ H2].
  split.
  - apply (H1 eq_refl eq_refl eq_refl).
  - apply H2; [discriminate | right; reflexivity | reflexivity].
Defined.
